(** * The music-catalog API: the request handlers of [songs/views.py]

    The handlers are Django REST framework view sets.  They are embedded
    as state-passing functions over the database: a handler takes a request
    and the current tables and returns a response and the new tables.  An
    exception raised on the way (Http404, PermissionDenied, ...) cuts the
    handler short and is turned into its response by the dispatcher, as the
    framework does.

    [songs/views.py] imports its permission classes, its serializers and its
    collaboration helpers from modules of the package; the handlers take
    them as instances of a class per imported module, under the names of the
    import. *)

From Stdlib Require Import ZArith String Ascii.
From stdpp Require Import base option list sorting gmap sets strings.

Local Open Scope string_scope.

(** ** Wire data *)

(** HTTP verbs the routes distinguish. *)
Inductive Method := GET | POST | PUT | PATCH | DELETE.

Global Instance Method_eq_dec : EqDecision Method.
Proof. solve_decision. Defined.

(** [SAFE_METHODS] of the framework, restricted to the verbs above. *)
Definition SAFE_METHODS (m : Method) : bool :=
  match m with GET => true | _ => false end.

Definition method_name (m : Method) : string :=
  match m with
  | GET => "GET" | POST => "POST" | PUT => "PUT"
  | PATCH => "PATCH" | DELETE => "DELETE"
  end.

(** A value of [request.data]: JSON bodies carry numbers, form bodies carry
    strings. *)
Inductive Value :=
  | VNull
  | VInt (n : Z)
  | VStr (s : string)
  | VList (l : list Z).

Global Instance Value_eq_dec : EqDecision Value.
Proof. solve_decision. Defined.

(** [request]: the verb, [request.user] ([None] is the anonymous user),
    [request.data], and the time the request is served.  A detail URL is
    taken as it is routed, without a query string; the search terms of a list
    request are an argument of the list handlers. *)
Record Request := {
  method : Method;
  user : option Z;
  data : gmap string Value;
  now : Z
}.

Definition set_data (d : gmap string Value) (req : Request) : Request :=
  {| method := method req; user := user req; data := d; now := now req |}.

Definition is_authenticated (req : Request) : bool :=
  if user req is Some _ then true else false.

(** [request.data.get(key)]: [None] when the key is absent, and also when it
    is present with the value null. *)
Definition data_get (req : Request) (key : string) : option Value :=
  match data req !! key with
  | Some VNull => None
  | o => o
  end.

(** ** Stored records ([songs/models.py]) *)

(** Modelled from the spec: the User model of the absent [songs/models.py],
    with the attributes of section 3 of the specification; dates are day
    numbers. *)
Record User := {
  username : string;
  password : string;
  first_name : string;
  last_name : string;
  birth_date : option Z;
  country : option string;
  email : option string;
  is_active : bool
}.

(** Modelled from the spec: the Song and Album models of the absent
    [songs/models.py].  Both carry the attributes of a release; the last four
    are those of a Song and stay empty on an Album. *)
Record Release := {
  title : string;
  cover_image : option string;
  release_date : option Z;
  artists : gset Z;
  requested_artists : gset Z;
  audio_file : option string;
  genre : option string;
  album : option Z;
  track_number : option Z
}.

(** Modelled from the spec: the Playlist model of the absent
    [songs/models.py]. *)
Record Playlist := {
  pl_title : string;
  owner : Z;
  pl_songs : gset Z;
  created_at : Z
}.

Global Instance User_eq_dec : EqDecision User.
Proof. solve_decision. Defined.
Global Instance Release_eq_dec : EqDecision Release.
Proof. solve_decision. Defined.
Global Instance Playlist_eq_dec : EqDecision Playlist.
Proof. solve_decision. Defined.

(** The two models the release mixin serves. *)
Inductive ReleaseKind := Song | Album.

Global Instance ReleaseKind_eq_dec : EqDecision ReleaseKind.
Proof. solve_decision. Defined.

(** The database: one table per model, keyed by primary key.  The two
    many-to-many relations of a release and the songs of a playlist are kept
    in the row as sets of keys. *)
Record DB := {
  users : gmap Z User;
  songs : gmap Z Release;
  albums : gmap Z Release;
  playlists : gmap Z Playlist
}.

Definition set_users (t : gmap Z User) (db : DB) : DB :=
  {| users := t; songs := songs db; albums := albums db;
     playlists := playlists db |}.
Definition set_songs (t : gmap Z Release) (db : DB) : DB :=
  {| users := users db; songs := t; albums := albums db;
     playlists := playlists db |}.
Definition set_albums (t : gmap Z Release) (db : DB) : DB :=
  {| users := users db; songs := songs db; albums := t;
     playlists := playlists db |}.
Definition set_playlists (t : gmap Z Playlist) (db : DB) : DB :=
  {| users := users db; songs := songs db; albums := albums db;
     playlists := t |}.

Definition releases (k : ReleaseKind) (db : DB) : gmap Z Release :=
  match k with Song => songs db | Album => albums db end.
Definition set_releases (k : ReleaseKind) (t : gmap Z Release) (db : DB) : DB :=
  match k with Song => set_songs t db | Album => set_albums t db end.

(** Field updates on rows. *)
Definition set_is_active (b : bool) (u : User) : User :=
  {| username := username u; password := password u;
     first_name := first_name u; last_name := last_name u;
     birth_date := birth_date u; country := country u; email := email u;
     is_active := b |}.
Definition set_artists (s : gset Z) (r : Release) : Release :=
  {| title := title r; cover_image := cover_image r;
     release_date := release_date r; artists := s;
     requested_artists := requested_artists r; audio_file := audio_file r;
     genre := genre r; album := album r; track_number := track_number r |}.
Definition set_requested_artists (s : gset Z) (r : Release) : Release :=
  {| title := title r; cover_image := cover_image r;
     release_date := release_date r; artists := artists r;
     requested_artists := s; audio_file := audio_file r;
     genre := genre r; album := album r; track_number := track_number r |}.
Definition set_pl_songs (s : gset Z) (p : Playlist) : Playlist :=
  {| pl_title := pl_title p; owner := owner p; pl_songs := s;
     created_at := created_at p |}.

(** ** Responses *)

Definition HTTP_200_OK : Z := 200.
Definition HTTP_201_CREATED : Z := 201.
Definition HTTP_204_NO_CONTENT : Z := 204.
Definition HTTP_400_BAD_REQUEST : Z := 400.
Definition HTTP_401_UNAUTHORIZED : Z := 401.
Definition HTTP_403_FORBIDDEN : Z := 403.
Definition HTTP_404_NOT_FOUND : Z := 404.
Definition HTTP_405_METHOD_NOT_ALLOWED : Z := 405.
Definition HTTP_500_INTERNAL_SERVER_ERROR : Z := 500.

(** The body of a response.  A representation is given by the row it
    serializes ([serializer.data]); an error body is a dictionary from a
    field name, or [detail], to a message (or to the list that holds it). *)
Inductive Body :=
  | NoBody
  | Detail (msg : string)
  | Errors (errs : list (string * string))
  | UserData (pk : Z) (u : User)
  | ReleaseData (k : ReleaseKind) (pk : Z) (r : Release)
  | PlaylistData (pk : Z) (p : Playlist)
  | UserResults (rows : list (Z * User))
  | ReleaseResults (k : ReleaseKind) (rows : list (Z * Release))
  | PlaylistResults (rows : list (Z * Playlist)).

Record Response := { status : Z; body : Body }.

(** The exceptions the handlers and the framework raise. *)
Inductive APIException :=
  | Http404
  | PermissionDenied
  | NotAuthenticated
  | MethodNotAllowed (m : Method)
  | ValidationError (errs : list (string * string))
  | ServerError.

Definition quote : string := String (ascii_of_nat 34) "".

(** The framework's exception handler. *)
Definition handle_exception (e : APIException) : Response :=
  match e with
  | Http404 => {| status := HTTP_404_NOT_FOUND; body := Detail "Not found." |}
  | PermissionDenied =>
      {| status := HTTP_403_FORBIDDEN;
         body := Detail "You do not have permission to perform this action." |}
  | NotAuthenticated =>
      {| status := HTTP_401_UNAUTHORIZED;
         body := Detail "Authentication credentials were not provided." |}
  | MethodNotAllowed m =>
      {| status := HTTP_405_METHOD_NOT_ALLOWED;
         body := Detail ("Method " +:+ quote +:+ method_name m +:+ quote
                           +:+ " not allowed.") |}
  | ValidationError errs =>
      {| status := HTTP_400_BAD_REQUEST; body := Errors errs |}
  | ServerError =>
      {| status := HTTP_500_INTERNAL_SERVER_ERROR; body := NoBody |}
  end.

(** ** The handler monad: database state and exceptions *)

Definition View (A : Type) : Type := DB → (APIException + A) * DB.

Global Instance View_ret : MRet View := λ A a db, (inr a, db).
Global Instance View_bind : MBind View := λ A B f m db,
  match m db with
  | (inl e, db') => (inl e, db')
  | (inr a, db') => f a db'
  end.

Definition raise {A} (e : APIException) : View A := λ db, (inl e, db).
Definition query {A} (f : DB → A) : View A := λ db, (inr (f db), db).
Definition modify (f : DB → DB) : View unit := λ db, (inr tt, f db).

(** What the dispatcher hands back: the handler's response, or the response
    of the exception that cut it short. *)
Definition run (v : View Response) (db : DB) : Response * DB :=
  match v db with
  | (inl e, db') => (handle_exception e, db')
  | (inr r, db') => (r, db')
  end.

(** ** Query sets *)

(** A query set is the list of its rows, in order. *)
Abbreviation QuerySet A := (list (Z * A)).

Definition objects_all {A} (t : gmap Z A) : QuerySet A := map_to_list t.

Definition objects_filter {A} (P : A → Prop) `{!∀ x, Decision (P x)}
    (t : gmap Z A) : QuerySet A :=
  map_to_list (filter (λ kv, P kv.2) t).

(** [.get(pk=pk)]: the row of that key. *)
Definition qs_get {A} (pk : Z) (qs : QuerySet A) : option A :=
  (list_to_map qs : gmap Z A) !! pk.

(** Orders on rows by a column.  Text compares by code point and a null
    sorts before every value, as under the default collation of SQLite. *)
Definition null_first_le (a b : option Z) : Prop :=
  match a, b with
  | None, _ => True
  | Some _, None => False
  | Some x, Some y => (x ≤ y)%Z
  end.

Definition asc {A K} (le : relation K) (col : A → K) : relation (Z * A) :=
  λ r1 r2, le (col r1.2) (col r2.2).
Definition desc {A K} (le : relation K) (col : A → K) : relation (Z * A) :=
  λ r1 r2, le (col r2.2) (col r1.2).

Global Instance null_first_le_dec : RelDecision null_first_le.
Proof. intros [x|] [y|]; simpl; apply _. Defined.
Global Instance asc_dec {A K} (le : relation K) `{!RelDecision le}
  (col : A → K) : RelDecision (asc le col).
Proof. intros r1 r2. unfold asc. apply _. Defined.
Global Instance desc_dec {A K} (le : relation K) `{!RelDecision le}
  (col : A → K) : RelDecision (desc le col).
Proof. intros r1 r2. unfold desc. apply _. Defined.

Definition order_by {A} (R : relation (Z * A)) `{!RelDecision R}
    (qs : QuerySet A) : QuerySet A :=
  merge_sort R qs.

(** The key the backend gives a new row: one more than the largest key of
    the table. *)
Definition next_pk {A} (t : gmap Z A) : Z :=
  (foldr Z.max 0 (map_to_list t).*1 + 1)%Z.

(** ** The framework: permissions, serializers, generic view sets *)

(** A permission class: the check made before the handler runs and the check
    [get_object] makes on the row it found. *)
Record BasePermission (O : Type) := {
  has_permission : Request → bool;
  has_object_permission : Request → Z → O → bool
}.
Arguments has_permission {O} _ _.
Arguments has_object_permission {O} _ _ _ _.

(** A serializer class with validated data [V]: validation of [request.data]
    (given the row under update, if any, and whether the update is partial),
    and the rows [save()] creates or writes back.  [create] is partial: the
    backend refuses a row that lacks a mandatory column. *)
Record Serializer (O V : Type) := {
  run_validation : DB → Request → option (Z * O) → bool → list (string * string) + V;
  create : Request → V → option O;
  update : O → V → O
}.
Arguments run_validation {O V} _ _ _ _ _.
Arguments create {O V} _ _ _.
Arguments update {O V} _ _ _.

(** The attributes of a view set class. *)
Record ViewSet (O V : Type) := {
  get_queryset : Request → View (QuerySet O);
  permission_classes : list (BasePermission O);
  serializer_class : Serializer O V;
  search : list string → QuerySet O → View (QuerySet O);
  objects : DB → gmap Z O;
  set_objects : gmap Z O → DB → DB;
  serializer_data : Z → O → Body;
  results : QuerySet O → Body
}.
Arguments get_queryset {O V} _ _.
Arguments permission_classes {O V} _.
Arguments serializer_class {O V} _.
Arguments search {O V} _ _ _.
Arguments objects {O V} _ _.
Arguments set_objects {O V} _ _ _.
Arguments serializer_data {O V} _ _ _.
Arguments results {O V} _ _.

(** An extra action declared with its own [permission_classes]. *)
Definition with_permission_classes {O V} (perms : list (BasePermission O))
    (self : ViewSet O V) : ViewSet O V :=
  {| get_queryset := get_queryset self; permission_classes := perms;
     serializer_class := serializer_class self; search := search self;
     objects := objects self; set_objects := set_objects self;
     serializer_data := serializer_data self; results := results self |}.

Section GenericViewSet.
Context {O V : Type} (self : ViewSet O V).

(** An anonymous request is refused as unauthenticated, any other as
    forbidden. *)
Definition denied (req : Request) : APIException :=
  if is_authenticated req then PermissionDenied else NotAuthenticated.

Definition permission_denied {A} (req : Request) : View A :=
  raise (denied req).

Fixpoint check_all (checks : list bool) (req : Request) : View unit :=
  match checks with
  | [] => mret tt
  | ok :: rest => if ok then check_all rest req else permission_denied req
  end.

Definition check_permissions (req : Request) : View unit :=
  check_all ((λ p, has_permission p req) <$> permission_classes self) req.

Definition check_object_permissions (req : Request) (pk : Z) (obj : O)
    : View unit :=
  check_all ((λ p, has_object_permission p req pk obj)
               <$> permission_classes self) req.

(** [get_object]: look the key up in the view's query set, then check the
    object permissions. *)
Definition get_object (req : Request) (pk : Z) : View O :=
  queryset ← get_queryset self req;
  match qs_get pk queryset with
  | None => raise Http404
  | Some obj => check_object_permissions req pk obj ;; mret obj
  end.

Definition Model_save (pk : Z) (obj : O) : View unit :=
  modify (λ db, set_objects self (<[pk := obj]> (objects self db)) db).

Definition Model_delete (pk : Z) : View unit :=
  modify (λ db, set_objects self (delete pk (objects self db)) db).

(** [serializer.is_valid(raise_exception=True)]. *)
Definition is_valid (req : Request) (instance : option (Z * O))
    (partial : bool) : View V :=
  res ← query (λ db, run_validation (serializer_class self) db req instance partial);
  match res with
  | inl errs => raise (ValidationError errs)
  | inr v => mret v
  end.

(** [serializer.save()] of a new row. *)
Definition save_new (req : Request) (v : V) : View (Z * O) :=
  match create (serializer_class self) req v with
  | None => raise ServerError
  | Some obj =>
      pk ← query (λ db, next_pk (objects self db));
      Model_save pk obj ;; mret (pk, obj)
  end.

Definition retrieve (req : Request) (pk : Z) : View Response :=
  instance ← get_object req pk;
  mret {| status := HTTP_200_OK; body := serializer_data self pk instance |}.

Definition generic_update (partial : bool) (req : Request) (pk : Z)
    : View Response :=
  instance ← get_object req pk;
  v ← is_valid req (Some (pk, instance)) partial;
  let instance' := update (serializer_class self) instance v in
  Model_save pk instance' ;;
  mret {| status := HTTP_200_OK; body := serializer_data self pk instance' |}.

Definition generic_destroy (req : Request) (pk : Z) : View Response :=
  _ ← get_object req pk;
  Model_delete pk ;;
  mret {| status := HTTP_204_NO_CONTENT; body := NoBody |}.

(** [create], with the [perform_create] hook of the class.  The body is
    the representation of the row as stored when the hook is done. *)
Definition generic_create (perform_create : Request → V → View Z)
    (req : Request) : View Response :=
  v ← is_valid req None false;
  pk ← perform_create req v;
  stored ← query (λ db, objects self db !! pk);
  match stored with
  | None => raise ServerError
  | Some obj =>
      mret {| status := HTTP_201_CREATED; body := serializer_data self pk obj |}
  end.

(** [list]: the query set, filtered by the search terms.  The page size is
    a setting outside the views; the body holds the whole filtered query
    set. *)
Definition filter_queryset (terms : list string) (req : Request)
    : View (QuerySet O) :=
  queryset ← get_queryset self req;
  search self terms queryset.

Definition generic_list (terms : list string) (req : Request)
    : View Response :=
  rows ← filter_queryset terms req;
  mret {| status := HTTP_200_OK; body := results self rows |}.

(** The dispatcher: permissions first, then the handler the route maps the
    verb to, and the exception handler around both. *)
Definition dispatch (req : Request) (handler : Method → option (View Response))
    : DB → Response * DB :=
  run (check_permissions req ;;
       match handler (method req) with
       | Some h => h
       | None => raise (MethodNotAllowed (method req))
       end).
End GenericViewSet.

(** ** The search filter *)

Definition lower (c : ascii) : ascii :=
  let n := nat_of_ascii c in
  if (65 <=? n)%nat && (n <=? 90)%nat then ascii_of_nat (n + 32) else c.

Fixpoint lowercase (s : string) : string :=
  match s with
  | "" => ""
  | String c s' => String (lower c) (lowercase s')
  end.

Fixpoint contains (t s : string) : bool :=
  String.prefix t s ||
  match s with
  | "" => false
  | String _ s' => contains t s'
  end.

(** The [icontains] lookup: containment that ignores the case of ASCII
    letters. *)
Definition icontains (term s : string) : bool :=
  contains (lowercase term) (lowercase s).

(** One joined row of a record gives the values of the searched columns, a
    null where the join finds nothing.  The row matches when every term is
    contained in one of them. *)
Definition search_row (terms : list string) (cols : list (option string))
    : bool :=
  forallb (λ t, existsb (λ c, if c is Some s then icontains t s else false) cols)
          terms.

(** [SearchFilter.filter_queryset] with the [search_fields] of the view given
    as the joined rows of a record: without terms the query set is returned
    as it is, otherwise the records with a matching joined row are kept, each
    once. *)
Definition SearchFilter {A} (search_fields : DB → A → list (list (option string)))
    (terms : list string) (qs : QuerySet A) : View (QuerySet A) :=
  if terms is [] then mret qs
  else query (λ db, filter (λ r, existsb (search_row terms) (search_fields db r.2)) qs).

(** The rows the search filter keeps. *)
Definition searched {A} (search_fields : DB → A → list (list (option string)))
    (terms : list string) (db : DB) (qs : QuerySet A) : QuerySet A :=
  if terms is [] then qs
  else filter (λ r, existsb (search_row terms) (search_fields db r.2)) qs.

(** ** What [songs/views.py] imports *)

(** [from .permissions import ...] *)
Class Permissions := {
  IsArtistOrReadOnly : BasePermission Release;
  IsPlaylistOwner : BasePermission Playlist;
  IsUserOrReadOnly : BasePermission User;
  IsRequestedArtist : BasePermission Release
}.

(** The validated data of the playlist serializer: each key is there or
    not.  [save(owner=...)] adds the owner the view gives. *)
Record PlaylistFields := {
  v_title : option string;
  v_owner : option Z
}.

Definition with_owner (u : Z) (v : PlaylistFields) : PlaylistFields :=
  {| v_title := v_title v; v_owner := Some u |}.

(** [from .serializers import ...]: the serializers of users, songs and
    albums, each with validated data of its own. *)
Class Serializers := {
  UserFields : Type;
  ReleaseFields : Type;
  UserSerializer : Serializer User UserFields;
  SongSerializer : Serializer Release ReleaseFields;
  AlbumSerializer : Serializer Release ReleaseFields
}.

(** [from .serializers import PlaylistSerializer] *)
Class PlaylistSerializerClass :=
  PlaylistSerializer : Serializer Playlist PlaylistFields.

(** [from .helpers import ...]: a helper is given the model instances (the
    key and the row) and the acting user, and returns a response. *)
Class Helpers := {
  add_artist_to_requested :
    ReleaseKind → Z * Release → Z * User → option Z → View Response;
  remove_artist_from_requested :
    ReleaseKind → Z * Release → Z * User → option Z → View Response;
  confirm_user_as_artist :
    ReleaseKind → Z * Release → option Z → View Response;
  remove_user_as_artist :
    ReleaseKind → Z * Release → option Z → View Response;
  add_song_to_playlist : Z * Playlist → Z * Release → View Response;
  remove_song_from_playlist : Z * Playlist → Z * Release → View Response
}.

(** Python's [int] on a string, by which a model field makes a key of a
    string; [None] when it raises. *)
Class Builtins := int_of_str : string → option Z.

(** ** [songs/views.py] *)

Section Views.
Context `{!Permissions, !Serializers, !PlaylistSerializerClass, !Helpers,
          !Builtins}.

(** The key a model field makes of a value of the request. *)
Definition to_python (value : Value) : option Z :=
  match value with
  | VInt n => Some n
  | VStr s => int_of_str s
  | VNull | VList _ => None
  end.

(** [django.shortcuts.get_object_or_404(Model, pk=value)]: a value that is
    no number makes the lookup raise, which nothing catches. *)
Definition get_object_or_404 {A} (table : DB → gmap Z A) (value : Value)
    : View (Z * A) :=
  match to_python value with
  | None => raise ServerError
  | Some pk =>
      row ← query (λ db, table db !! pk);
      match row with
      | None => raise Http404
      | Some obj => mret (pk, obj)
      end
  end.

(** *** UserViewSet *)

Definition UserViewSet : ViewSet User UserFields := {|
  get_queryset _ :=
    query (λ db, order_by (asc String.le username) (objects_all (users db)));
  permission_classes := [IsUserOrReadOnly];
  serializer_class := UserSerializer;
  search := SearchFilter (λ _ u, [[Some (username u); country u]]);
  objects := users;
  set_objects := set_users;
  serializer_data := UserData;
  results := UserResults
|}.

Definition UserViewSet_create (req : Request) : View Response :=
  mret {| status := HTTP_405_METHOD_NOT_ALLOWED; body := Detail "Use register." |}.

Definition UserViewSet_destroy (req : Request) (pk : Z) : View Response :=
  user ← get_object UserViewSet req pk;
  let user := set_is_active false user in
  Model_save UserViewSet pk user ;;
  mret {| status := HTTP_204_NO_CONTENT; body := NoBody |}.

(** *** ReleaseMixin, SongViewSet, AlbumViewSet *)

(** The usernames the join over [artists] yields for a release: one per
    artist, a single null when it has none. *)
Definition artists__username (db : DB) (r : Release) : list (option string) :=
  match elements (artists r) with
  | [] => [None]
  | ids => (λ a, username <$> users db !! a) <$> ids
  end.

Definition SongViewSet : ViewSet Release ReleaseFields := {|
  get_queryset _ :=
    query (λ db, order_by (desc null_first_le release_date) (objects_all (songs db)));
  permission_classes := [IsArtistOrReadOnly];
  serializer_class := SongSerializer;
  search := SearchFilter (λ db r, (λ a, [Some (title r); a]) <$> artists__username db r);
  objects := songs;
  set_objects := set_songs;
  serializer_data := ReleaseData Song;
  results := ReleaseResults Song
|}.

Definition AlbumViewSet : ViewSet Release ReleaseFields := {|
  get_queryset _ :=
    query (λ db, order_by (desc null_first_le release_date) (objects_all (albums db)));
  permission_classes := [IsArtistOrReadOnly];
  serializer_class := AlbumSerializer;
  search := SearchFilter (λ db r, (λ a, [Some (title r); a]) <$> artists__username db r);
  objects := albums;
  set_objects := set_albums;
  serializer_data := ReleaseData Album;
  results := ReleaseResults Album
|}.

(** The view set the mixin is mixed into. *)
Definition ReleaseViewSet (k : ReleaseKind) : ViewSet Release ReleaseFields :=
  match k with Song => SongViewSet | Album => AlbumViewSet end.

(** [entity.artists.add(user)] *)
Definition artists_add (k : ReleaseKind) (pk u : Z) : View unit :=
  modify (λ db, set_releases k
    (alter (λ r, set_artists (artists r ∪ {[u]}) r) pk (releases k db)) db).

Definition ReleaseMixin_perform_create (k : ReleaseKind) (req : Request)
    (v : ReleaseFields) : View Z :=
  entity_instance ← save_new (ReleaseViewSet k) req v;
  match user req with
  | None => raise ServerError
  | Some u => artists_add k entity_instance.1 u ;; mret entity_instance.1
  end.

Definition ReleaseMixin_manage_requested_artists (k : ReleaseKind)
    (req : Request) (pk : Z) : View Response :=
  entity ← get_object (ReleaseViewSet k) req pk;
  match data_get req "artist_id" with
  | None =>
      mret {| status := HTTP_400_BAD_REQUEST;
              body := Errors [("artist_id", "This field is required.")] |}
  | Some artist_id =>
      artist ← get_object_or_404 users artist_id;
      if decide (method req = POST)
      then add_artist_to_requested k (pk, entity) artist (user req)
      else remove_artist_from_requested k (pk, entity) artist (user req)
  end.

Definition ReleaseMixin_confirm_current_user_as_artist (k : ReleaseKind)
    (req : Request) (pk : Z) : View Response :=
  entity ← get_object
    (with_permission_classes [IsRequestedArtist] (ReleaseViewSet k)) req pk;
  confirm_user_as_artist k (pk, entity) (user req).

Definition ReleaseMixin_remove_current_user_as_artist (k : ReleaseKind)
    (req : Request) (pk : Z) : View Response :=
  entity ← get_object (ReleaseViewSet k) req pk;
  remove_user_as_artist k (pk, entity) (user req).

(** *** PlaylistViewSet *)

(** Filtering on the anonymous user raises. *)
Definition PlaylistViewSet_get_queryset (req : Request)
    : View (QuerySet Playlist) :=
  match user req with
  | None => raise ServerError
  | Some u =>
      query (λ db, order_by (desc Z.le created_at)
                     (objects_filter (λ p, owner p = u) (playlists db)))
  end.

Definition PlaylistViewSet : ViewSet Playlist PlaylistFields := {|
  get_queryset := PlaylistViewSet_get_queryset;
  permission_classes := [IsPlaylistOwner];
  serializer_class := PlaylistSerializer;
  search := SearchFilter (λ _ p, [[Some (pl_title p)]]);
  objects := playlists;
  set_objects := set_playlists;
  serializer_data := PlaylistData;
  results := PlaylistResults
|}.

Definition PlaylistViewSet_perform_create (req : Request)
    (v : PlaylistFields) : View Z :=
  match user req with
  | None => raise ServerError
  | Some u =>
      instance ← save_new PlaylistViewSet req (with_owner u v);
      mret instance.1
  end.

Definition PlaylistViewSet_manage_songs (req : Request) (pk : Z)
    : View Response :=
  playlist ← get_object PlaylistViewSet req pk;
  match data_get req "song_id" with
  | None =>
      mret {| status := HTTP_400_BAD_REQUEST;
              body := Errors [("song_id", "This field is required.")] |}
  | Some song_id =>
      song ← get_object_or_404 songs song_id;
      if decide (method req = POST)
      then add_song_to_playlist (pk, playlist) song
      else remove_song_from_playlist (pk, playlist) song
  end.

(** *** The routes

    The router gives a view set a list route (GET lists, POST creates) and
    a detail route (GET, PUT, PATCH, DELETE), and each extra action a
    route for the verbs it declares.  Of the songs and albums the list route
    and the three extra actions are embedded; their detail route, inherited
    as it is from the framework, is left out. *)

Definition users_list (terms : list string) (req : Request)
    : DB → Response * DB :=
  dispatch UserViewSet req (λ m,
    match m with
    | GET => Some (generic_list UserViewSet terms req)
    | POST => Some (UserViewSet_create req)
    | _ => None
    end).

Definition users_detail (req : Request) (pk : Z) : DB → Response * DB :=
  dispatch UserViewSet req (λ m,
    match m with
    | GET => Some (retrieve UserViewSet req pk)
    | PUT => Some (generic_update UserViewSet false req pk)
    | PATCH => Some (generic_update UserViewSet true req pk)
    | DELETE => Some (UserViewSet_destroy req pk)
    | POST => None
    end).

Definition releases_list (k : ReleaseKind) (terms : list string)
    (req : Request) : DB → Response * DB :=
  dispatch (ReleaseViewSet k) req (λ m,
    match m with
    | GET => Some (generic_list (ReleaseViewSet k) terms req)
    | POST => Some (generic_create (ReleaseViewSet k)
                      (ReleaseMixin_perform_create k) req)
    | _ => None
    end).

Definition manage_requested_artists (k : ReleaseKind) (req : Request)
    (pk : Z) : DB → Response * DB :=
  dispatch (ReleaseViewSet k) req (λ m,
    match m with
    | POST | DELETE => Some (ReleaseMixin_manage_requested_artists k req pk)
    | _ => None
    end).

Definition confirm_current_user_as_artist (k : ReleaseKind) (req : Request)
    (pk : Z) : DB → Response * DB :=
  dispatch (with_permission_classes [IsRequestedArtist] (ReleaseViewSet k)) req
    (λ m,
      match m with
      | POST => Some (ReleaseMixin_confirm_current_user_as_artist k req pk)
      | _ => None
      end).

Definition remove_current_user_as_artist (k : ReleaseKind) (req : Request)
    (pk : Z) : DB → Response * DB :=
  dispatch (ReleaseViewSet k) req (λ m,
    match m with
    | DELETE => Some (ReleaseMixin_remove_current_user_as_artist k req pk)
    | _ => None
    end).

Definition playlists_list (terms : list string) (req : Request)
    : DB → Response * DB :=
  dispatch PlaylistViewSet req (λ m,
    match m with
    | GET => Some (generic_list PlaylistViewSet terms req)
    | POST => Some (generic_create PlaylistViewSet
                      PlaylistViewSet_perform_create req)
    | _ => None
    end).

Definition playlists_detail (req : Request) (pk : Z) : DB → Response * DB :=
  dispatch PlaylistViewSet req (λ m,
    match m with
    | GET => Some (retrieve PlaylistViewSet req pk)
    | PUT => Some (generic_update PlaylistViewSet false req pk)
    | PATCH => Some (generic_update PlaylistViewSet true req pk)
    | DELETE => Some (generic_destroy PlaylistViewSet req pk)
    | POST => None
    end).

Definition manage_songs (req : Request) (pk : Z) : DB → Response * DB :=
  dispatch PlaylistViewSet req (λ m,
    match m with
    | POST | DELETE => Some (PlaylistViewSet_manage_songs req pk)
    | _ => None
    end).
End Views.

(** ** Registration and login *)

(** [from knox.models import AuthToken]: the token table of the token
    library, and [AuthToken.objects.create(user)[1]], which stores a token of
    the user and gives its text. *)
Class Knox := {
  Tokens : Type;
  AuthToken_create : Z → Tokens → string * Tokens
}.

(** [from .serializers import LoginUserSerializer]: its validated data is the
    user the credentials are those of. *)
Class LoginSerializerClass :=
  LoginUserSerializer : DB → Request → list (string * string) + (Z * User).

(** The default permission classes of the settings, which guard a view that
    names none of its own. *)
Class Settings := DEFAULT_PERMISSION_CLASSES : Request → bool.

(** The answer of the two views: an error, or the status with the
    representation of the user and the text of the token under the keys
    [user] and [token]. *)
Inductive AuthResponse :=
  | Refused (r : Response)
  | UserAndToken (code : Z) (pk : Z) (u : User) (token : string).

Section AuthViews.
Context `{!Serializers, !LoginSerializerClass, !Knox, !Settings}.

(** [authentication_classes = []]: no credentials are read, the request is
    that of the anonymous user. *)
Definition unauthenticated (req : Request) : Request :=
  {| method := method req; user := None; data := data req; now := now req |}.

Definition RegistrationAPI_post (req : Request) (st : DB * Tokens)
    : AuthResponse * (DB * Tokens) :=
  match run_validation UserSerializer st.1 req None false with
  | inl errs => (Refused (handle_exception (ValidationError errs)), st)
  | inr v =>
      match create UserSerializer req v with
      | None => (Refused (handle_exception ServerError), st)
      | Some user =>
          let pk := next_pk (users st.1) in
          let db := set_users (<[pk := user]> (users st.1)) st.1 in
          let (token, tokens) := AuthToken_create pk st.2 in
          (UserAndToken HTTP_201_CREATED pk user token, (db, tokens))
      end
  end.

Definition LoginAPI_post (req : Request) (st : DB * Tokens)
    : AuthResponse * (DB * Tokens) :=
  match LoginUserSerializer st.1 req with
  | inl errs => (Refused (handle_exception (ValidationError errs)), st)
  | inr user =>
      let (token, tokens) := AuthToken_create user.1 st.2 in
      (UserAndToken HTTP_200_OK user.1 user.2 token, (st.1, tokens))
  end.

(** The dispatcher of a view that defines [post] alone.  With no
    authentication class a refused permission is answered as forbidden. *)
Definition GenericAPIView_dispatch
    (post : Request → DB * Tokens → AuthResponse * (DB * Tokens))
    (req : Request) (st : DB * Tokens) : AuthResponse * (DB * Tokens) :=
  let req := unauthenticated req in
  if DEFAULT_PERMISSION_CLASSES req then
    match method req with
    | POST => post req st
    | m => (Refused (handle_exception (MethodNotAllowed m)), st)
    end
  else (Refused (handle_exception PermissionDenied), st).

Definition user_register : Request → DB * Tokens → AuthResponse * (DB * Tokens) :=
  GenericAPIView_dispatch RegistrationAPI_post.

Definition user_login : Request → DB * Tokens → AuthResponse * (DB * Tokens) :=
  GenericAPIView_dispatch LoginAPI_post.
End AuthViews.

(** ** The imported modules

    [songs/permissions.py], [songs/helpers.py] and [songs/serializers.py]
    are not among the sources at hand.  What is proved of the handlers alone
    is stated for every instance of the classes above; what depends on the
    behaviour of an imported class or helper is stated for the definitions
    below, which follow sections 4.3 to 4.5 of the specification. *)

Module permissions.

(** Modelled from the spec: [IsUserOrReadOnly] of the absent
    [songs/permissions.py].  Section 4.3: reading a user is always allowed;
    update and delete are allowed only when the acting identity is the target
    user. *)
Definition IsUserOrReadOnly : BasePermission User := {|
  has_permission _ := true;
  has_object_permission req pk _ :=
    SAFE_METHODS (method req) || bool_decide (user req = Some pk)
|}.

(** Modelled from the spec: [IsArtistOrReadOnly] of the absent
    [songs/permissions.py].  Section 4.3: reading a release is always
    allowed; any authenticated identity may create; update, delete and the
    collaboration actions are allowed only to a current artist of the
    release. *)
Definition IsArtistOrReadOnly : BasePermission Release := {|
  has_permission req := SAFE_METHODS (method req) || is_authenticated req;
  has_object_permission req _ r :=
    SAFE_METHODS (method req) ||
    (if user req is Some u then bool_decide (u ∈ artists r) else false)
|}.

(** Modelled from the spec: [IsRequestedArtist] of the absent
    [songs/permissions.py].  Section 4.3: confirming is allowed only to the
    identity that is itself in the requested-artists set. *)
Definition IsRequestedArtist : BasePermission Release := {|
  has_permission _ := true;
  has_object_permission req _ r :=
    if user req is Some u then bool_decide (u ∈ requested_artists r) else false
|}.

(** Modelled from the spec: [IsPlaylistOwner] of the absent
    [songs/permissions.py].  Section 4.3: a playlist is visible and operable
    only by its owner; an unauthenticated attempt is refused as such. *)
Definition IsPlaylistOwner : BasePermission Playlist := {|
  has_permission req := is_authenticated req;
  has_object_permission req _ p := bool_decide (user req = Some (owner p))
|}.

End permissions.

Module helpers.

(** Modelled from the spec: the way the helpers of the absent
    [songs/helpers.py] end, section 4.5: the one relationship change is
    stored and the answer is OK with the updated representation. *)
Definition release_ok (k : ReleaseKind) (pk : Z) (r : Release)
    : View Response :=
  modify (λ db, set_releases k (<[pk := r]> (releases k db)) db) ;;
  mret {| status := HTTP_200_OK; body := ReleaseData k pk r |}.

(** Modelled from the spec: the requirement [actor ∈ release.artists] of the
    absent [songs/helpers.py], section 4.5; a helper that finds it unmet
    reports the error without a change (section 7: Forbidden, or
    Unauthenticated for the anonymous user). *)
Definition actor_is_artist (release : Release) (actor : option Z)
    : APIException + unit :=
  match actor with
  | None => inl NotAuthenticated
  | Some a => if decide (a ∈ artists release) then inr tt else inl PermissionDenied
  end.

(** Modelled from the spec: [add_artist_to_requested(release, candidate,
    actor)] of the absent [songs/helpers.py], section 4.5: requires the actor
    among the artists; adds the candidate to the requested artists, with set
    semantics and no other check. *)
Definition add_artist_to_requested (k : ReleaseKind) (release : Z * Release)
    (candidate : Z * User) (actor : option Z) : View Response :=
  match actor_is_artist release.2 actor with
  | inl e => raise e
  | inr _ =>
      release_ok k release.1
        (set_requested_artists (requested_artists release.2 ∪ {[candidate.1]})
           release.2)
  end.

(** Modelled from the spec: [remove_artist_from_requested(release,
    candidate, actor)] of the absent [songs/helpers.py], section 4.5:
    requires the actor among the artists; removes the candidate from the
    requested artists. *)
Definition remove_artist_from_requested (k : ReleaseKind)
    (release : Z * Release) (candidate : Z * User) (actor : option Z)
    : View Response :=
  match actor_is_artist release.2 actor with
  | inl e => raise e
  | inr _ =>
      release_ok k release.1
        (set_requested_artists (requested_artists release.2 ∖ {[candidate.1]})
           release.2)
  end.

(** Modelled from the spec: [confirm_user_as_artist(release, actor)] of the
    absent [songs/helpers.py], section 4.5: removes the actor from the
    requested artists and adds the actor to the artists in one step.  That
    the actor is requested is the policy's check, not the helper's.  The
    anonymous user is no row of the user table and cannot be related. *)
Definition confirm_user_as_artist (k : ReleaseKind) (release : Z * Release)
    (actor : option Z) : View Response :=
  match actor with
  | None => raise ServerError
  | Some a =>
      release_ok k release.1
        (set_artists (artists release.2 ∪ {[a]})
           (set_requested_artists (requested_artists release.2 ∖ {[a]})
              release.2))
  end.

(** Modelled from the spec: [remove_user_as_artist(release, actor)] of the
    absent [songs/helpers.py], section 4.5: removes the actor from the
    artists; no least number of artists is kept. *)
Definition remove_user_as_artist (k : ReleaseKind) (release : Z * Release)
    (actor : option Z) : View Response :=
  match actor with
  | None => raise ServerError
  | Some a =>
      release_ok k release.1 (set_artists (artists release.2 ∖ {[a]}) release.2)
  end.

(** Modelled from the spec: how the playlist helpers of the absent
    [songs/helpers.py] end, section 4.5. *)
Definition playlist_ok (pk : Z) (p : Playlist) : View Response :=
  modify (λ db, set_playlists (<[pk := p]> (playlists db)) db) ;;
  mret {| status := HTTP_200_OK; body := PlaylistData pk p |}.

(** Modelled from the spec: [add_song_to_playlist(playlist, song)] of the
    absent [songs/helpers.py], section 4.5. *)
Definition add_song_to_playlist (playlist : Z * Playlist) (song : Z * Release)
    : View Response :=
  playlist_ok playlist.1 (set_pl_songs (pl_songs playlist.2 ∪ {[song.1]}) playlist.2).

(** Modelled from the spec: [remove_song_from_playlist(playlist, song)] of
    the absent [songs/helpers.py], section 4.5. *)
Definition remove_song_from_playlist (playlist : Z * Playlist)
    (song : Z * Release) : View Response :=
  playlist_ok playlist.1 (set_pl_songs (pl_songs playlist.2 ∖ {[song.1]}) playlist.2).

End helpers.

Module serializers.

(** Modelled from the spec: the validation of the title by
    [PlaylistSerializer] of the absent [songs/serializers.py].  Sections 3
    and 4.4: the title is required and not empty; a partial update may leave
    it out.  The messages for an empty, null or non-text title are those of
    the framework. *)
Definition validate_title (req : Request) (partial : bool)
    : list (string * string) + option string :=
  match data req !! "title" with
  | None =>
      if partial then inr None
      else inl [("title", "This field is required.")]
  | Some (VStr s) =>
      if decide (s = "") then inl [("title", "This field may not be blank.")]
      else inr (Some s)
  | Some VNull => inl [("title", "This field may not be null.")]
  | Some _ => inl [("title", "Not a valid string.")]
  end.

(** Modelled from the spec: [PlaylistSerializer] of the absent
    [songs/serializers.py].  Section 4.4: an owner in the input is accepted
    and discarded, whatever its value; the validated data never holds one.
    Saving is the framework's: a new row takes its columns from the validated
    data and the keywords of [save], and needs an owner; an update writes the
    keys the validated data holds. *)
Definition PlaylistSerializer : Serializer Playlist PlaylistFields := {|
  run_validation _ req _ partial :=
    match validate_title req partial with
    | inl errs => inl errs
    | inr t => inr {| v_title := t; v_owner := None |}
    end;
  create req v :=
    match v_owner v with
    | None => None
    | Some u =>
        Some {| pl_title := default "" (v_title v); owner := u;
                pl_songs := ∅; created_at := now req |}
    end;
  update p v :=
    {| pl_title := default (pl_title p) (v_title v);
       owner := default (owner p) (v_owner v);
       pl_songs := pl_songs p; created_at := created_at p |}
|}.

End serializers.

Definition modelled_permissions : Permissions :=
  Build_Permissions permissions.IsArtistOrReadOnly permissions.IsPlaylistOwner
    permissions.IsUserOrReadOnly permissions.IsRequestedArtist.

Definition modelled_helpers : Helpers :=
  Build_Helpers helpers.add_artist_to_requested
    helpers.remove_artist_from_requested helpers.confirm_user_as_artist
    helpers.remove_user_as_artist helpers.add_song_to_playlist
    helpers.remove_song_from_playlist.

Definition modelled_playlist_serializer : PlaylistSerializerClass :=
  serializers.PlaylistSerializer.

(** The row an update of a playlist with the validated title [t] writes
    back. *)
Definition updated_playlist (t : option string) (p : Playlist) : Playlist :=
  update serializers.PlaylistSerializer p {| v_title := t; v_owner := None |}.

(** ** Example data

    The fixtures of [songs/tests.py]: two users, an album and a song of the
    first user, a song of the second, and a playlist each. *)

Definition old_user : User :=
  {| username := "old_user"; password := "pbkdf2$old"; first_name := "Old";
     last_name := "User"; birth_date := Some 19000%Z; country := Some "US";
     email := Some "old_user@example.com"; is_active := true |}.

Definition old_user_2 : User :=
  {| username := "old_user_2"; password := "pbkdf2$old2"; first_name := "";
     last_name := ""; birth_date := None; country := None; email := None;
     is_active := true |}.

Definition old_album : Release :=
  {| title := "Old album"; cover_image := Some "old_album_cover_image.png";
     release_date := Some 19000%Z; artists := {[1%Z]}; requested_artists := ∅;
     audio_file := None; genre := None; album := None; track_number := None |}.

Definition old_song : Release :=
  {| title := "Old song"; cover_image := Some "old_song_cover_image.png";
     release_date := Some 19000%Z; artists := {[1%Z]}; requested_artists := ∅;
     audio_file := Some "old_audio_file.mp3"; genre := Some "pop";
     album := Some 1%Z; track_number := Some 1%Z |}.

Definition old_song_2 : Release := set_artists {[2%Z]} old_song.

Definition old_playlist : Playlist :=
  {| pl_title := "Old playlist"; owner := 1; pl_songs := {[1%Z]};
     created_at := 100 |}.

Definition old_playlist_2 : Playlist :=
  {| pl_title := "Old playlist 2"; owner := 2; pl_songs := {[1%Z; 2%Z]};
     created_at := 101 |}.

Definition fixtures : DB :=
  {| users := {[1%Z := old_user; 2%Z := old_user_2]};
     songs := {[1%Z := old_song; 2%Z := old_song_2]};
     albums := {[1%Z := old_album]};
     playlists := {[1%Z := old_playlist; 2%Z := old_playlist_2]} |}.

(** The fixtures with the second user requested as an artist of the first
    song, as [test_add_artist] has them before the confirmation. *)
Definition fixtures_requested : DB :=
  set_songs (<[1%Z := set_requested_artists {[2%Z]} old_song]> (songs fixtures))
    fixtures.

(** A request of the test client. *)
Definition request (m : Method) (u : option Z) (d : list (string * Value))
    : Request :=
  {| method := m; user := u; data := list_to_map d; now := 19001 |}.

(** Serializers for the examples: a release is made of the submitted title and
    artists, a user is left as it is. *)
Definition example_release_serializer : Serializer Release (string * list Z) := {|
  run_validation _ req _ _ :=
    match data req !! "title" with
    | Some (VStr t) =>
        inr (t, if data req !! "artists" is Some (VList l) then l else [])
    | _ => inl [("title", "This field is required.")]
    end;
  create _ v :=
    Some {| title := v.1; cover_image := None; release_date := None;
            artists := list_to_set v.2; requested_artists := ∅;
            audio_file := None; genre := None; album := None;
            track_number := None |};
  update r v := set_artists (list_to_set v.2) r
|}.

Definition example_serializers : Serializers := {|
  UserFields := unit;
  ReleaseFields := string * list Z;
  UserSerializer :=
    {| run_validation _ _ _ _ := inr tt; create _ _ := None; update u _ := u |};
  SongSerializer := example_release_serializer;
  AlbumSerializer := example_release_serializer
|}.

(** [int] on a plain run of decimal digits, for the examples. *)
Fixpoint digits (s : string) (acc : Z) : option Z :=
  match s with
  | "" => Some acc
  | String c s' =>
      let n := Z.of_nat (nat_of_ascii c) in
      if decide (48 ≤ n ≤ 57)%Z then digits s' (10 * acc + (n - 48))%Z else None
  end.

Definition decimal : Builtins :=
  λ s, if decide (s = "") then None else digits s 0.

(** Instances for the examples of registration and login: the user
    serializer asks for a username that is free and a password with its
    confirmation, the login serializer compares the stored password, the
    token library keeps the tokens in a list, and the settings allow any
    caller. *)
Definition example_user_serializer : Serializer User User := {|
  run_validation db req _ _ :=
    match data req !! "username", data req !! "password",
          data req !! "password_confirmation" with
    | Some (VStr n), Some (VStr p), Some (VStr c) =>
        if decide (Exists (λ r, username r.2 = n) (map_to_list (users db)))
        then inl [("username", "A user with that username already exists.")]
        else if decide (p = c)
        then inr {| username := n; password := p; first_name := "";
                    last_name := ""; birth_date := None; country := None;
                    email := None; is_active := true |}
        else inl [("password_confirmation",
                   "Password confirmation does not match password.")]
    | None, _, _ => inl [("username", "This field is required.")]
    | _, _, _ => inl [("password", "This field is required.")]
    end;
  create _ v := Some v;
  update u _ := u
|}.

Definition example_registration_serializers : Serializers := {|
  UserFields := User;
  ReleaseFields := string * list Z;
  UserSerializer := example_user_serializer;
  SongSerializer := example_release_serializer;
  AlbumSerializer := example_release_serializer
|}.

Definition example_login_serializer : LoginSerializerClass := λ db req,
  match data req !! "username", data req !! "password" with
  | Some (VStr n), Some (VStr p) =>
      match list_find (λ r, username r.2 = n ∧ password r.2 = p)
              (map_to_list (users db)) with
      | Some (_, r) => inr r
      | None => inl [("non_field_errors", "Invalid Details.")]
      end
  | None, _ => inl [("username", "This field is required.")]
  | _, _ => inl [("password", "This field is required.")]
  end.

Definition example_knox : Knox := {|
  Tokens := list (Z * string);
  AuthToken_create pk tokens := ("token", (pk, "token") :: tokens)
|}.

Definition no_tokens : @Tokens example_knox := [].

Definition allow_any : Settings := λ _, true.

(** ** The tests of [songs/tests.py] on the model

    The test client sends form data: the keys arrive as strings. *)

Section Tests.
Local Existing Instances modelled_permissions modelled_helpers
  modelled_playlist_serializer example_serializers decimal.

Example test_user_detail_delete_user :
  status (users_detail (request DELETE (Some 1%Z) []) 1 fixtures).1 =
    HTTP_204_NO_CONTENT.
Proof. reflexivity. Qed.

Example test_fail_user_detail_modify_another_user :
  status (users_detail (request POST (Some 1%Z) []) 2 fixtures).1 =
    HTTP_405_METHOD_NOT_ALLOWED ∧
  status (users_detail (request DELETE (Some 1%Z) []) 2 fixtures).1 =
    HTTP_403_FORBIDDEN.
Proof. by vm_compute. Qed.

Example test_fail_user_post :
  users_list [] (request POST (Some 1%Z) []) fixtures =
    ({| status := HTTP_405_METHOD_NOT_ALLOWED; body := Detail "Use register." |},
     fixtures).
Proof. reflexivity. Qed.

Example test_add_artist :
  let r1 := manage_requested_artists Song
              (request POST (Some 1%Z) [("artist_id", VStr "2")]) 1 fixtures in
  let r2 := confirm_current_user_as_artist Song (request POST (Some 2%Z) []) 1
              r1.2 in
  status r1.1 = HTTP_200_OK ∧
  (requested_artists <$> songs r1.2 !! 1%Z) = Some {[2%Z]} ∧
  status r2.1 = HTTP_200_OK ∧
  (requested_artists <$> songs r2.2 !! 1%Z) = Some ∅ ∧
  (artists <$> songs r2.2 !! 1%Z) = Some {[1%Z; 2%Z]}.
Proof. by vm_compute. Qed.

Example test_fail_request_non_existing_artist :
  manage_requested_artists Song
      (request POST (Some 1%Z) [("artist_id", VStr "3")]) 1 fixtures =
    ({| status := HTTP_404_NOT_FOUND; body := Detail "Not found." |}, fixtures).
Proof. by vm_compute. Qed.

Example test_remove_current_user_as_artist :
  let r := remove_current_user_as_artist Album (request DELETE (Some 1%Z) []) 1
             fixtures in
  status r.1 = HTTP_200_OK ∧ (artists <$> albums r.2 !! 1%Z) = Some ∅.
Proof. by vm_compute. Qed.

Example test_remove_requested_artist :
  let r1 := manage_requested_artists Song
              (request POST (Some 1%Z) [("artist_id", VStr "2")]) 1 fixtures in
  let r2 := manage_requested_artists Song
              (request DELETE (Some 1%Z) [("artist_id", VStr "2")]) 1 r1.2 in
  status r2.1 = HTTP_200_OK ∧
  (requested_artists <$> songs r2.2 !! 1%Z) = Some ∅ ∧
  (artists <$> songs r2.2 !! 1%Z) = Some {[1%Z]}.
Proof. by vm_compute. Qed.

Example test_create_song :
  let r := releases_list Song []
             (request POST (Some 1%Z)
                [("title", VStr "Old song"); ("artists", VList [1%Z])])
             fixtures in
  status r.1 = HTTP_201_CREATED ∧ size (songs r.2) = 3.
Proof. by vm_compute. Qed.

Example test_playlist_list :
  ∃ rows,
    playlists_list [] (request GET (Some 1%Z) []) fixtures =
      ({| status := HTTP_200_OK; body := PlaylistResults rows |}, fixtures) ∧
    length rows = 1.
Proof. eexists. split; [by vm_compute|reflexivity]. Qed.

Example test_create_playlist :
  let r := playlists_list [] (request POST (Some 1%Z)
             [("title", VStr "New Playlist")]) fixtures in
  status r.1 = HTTP_201_CREATED ∧ size (playlists r.2) = 3 ∧
  (owner <$> playlists r.2 !! 3%Z) = Some 1%Z.
Proof. by vm_compute. Qed.

Example test_fail_create_playlist_missing_title :
  playlists_list [] (request POST (Some 1%Z) []) fixtures =
    ({| status := HTTP_400_BAD_REQUEST;
        body := Errors [("title", "This field is required.")] |}, fixtures).
Proof. by vm_compute. Qed.

Example test_fail_get_playlist_by_another_user :
  playlists_detail (request GET (Some 1%Z) []) 2 fixtures =
    ({| status := HTTP_404_NOT_FOUND; body := Detail "Not found." |}, fixtures).
Proof. by vm_compute. Qed.

Example test_fail_update_playlist_owner :
  let r := playlists_detail (request PATCH (Some 1%Z) [("owner", VInt 2)]) 1
             fixtures in
  status r.1 = HTTP_200_OK ∧ (owner <$> playlists r.2 !! 1%Z) = Some 1%Z.
Proof. by vm_compute. Qed.

Example test_add_song :
  let r := manage_songs (request POST (Some 1%Z) [("song_id", VStr "2")]) 1
             fixtures in
  status r.1 = HTTP_200_OK ∧
  (pl_songs <$> playlists r.2 !! 1%Z) = Some {[1%Z; 2%Z]}.
Proof. by vm_compute. Qed.

Example test_fail_remove_non_existing_song :
  manage_songs (request DELETE (Some 1%Z) [("song_id", VStr "3")]) 1 fixtures =
    ({| status := HTTP_404_NOT_FOUND; body := Detail "Not found." |}, fixtures).
Proof. by vm_compute. Qed.

End Tests.

(** * Properties *)

(** ** The framework *)

Lemma foldr_max_ge (l : list Z) (k : Z) : k ∈ l → (k ≤ foldr Z.max 0 l)%Z.
Proof.
  induction l as [|x l IH]; [by intros ?%elem_of_nil|].
  intros [->|Hin]%elem_of_cons; simpl; [lia|].
  specialize (IH Hin). lia.
Qed.

Lemma next_pk_fresh {A} (t : gmap Z A) : t !! next_pk t = None.
Proof.
  destruct (t !! next_pk t) as [x|] eqn:E; [|done].
  apply elem_of_map_to_list in E.
  assert (next_pk t ∈ (map_to_list t).*1) as Hin.
  { apply list_elem_of_fmap. by exists (next_pk t, x). }
  apply foldr_max_ge in Hin. unfold next_pk in Hin. lia.
Qed.

Lemma qs_get_objects_all {A} (t : gmap Z A) pk :
  qs_get pk (objects_all t) = t !! pk.
Proof. unfold qs_get, objects_all. by rewrite list_to_map_to_list. Qed.

Lemma qs_get_objects_filter {A} (P : A → Prop) `{!∀ x, Decision (P x)}
    (t : gmap Z A) pk :
  qs_get pk (objects_filter P t) = filter (λ kv, P kv.2) t !! pk.
Proof. unfold qs_get, objects_filter. by rewrite list_to_map_to_list. Qed.

Lemma qs_get_order_by {A} (R : relation (Z * A)) `{!RelDecision R}
    (qs : QuerySet A) pk :
  NoDup qs.*1 → qs_get pk (order_by R qs) = qs_get pk qs.
Proof.
  intros Hnd. unfold qs_get, order_by. f_equal.
  symmetry. apply list_to_map_proper; [done|].
  symmetry. apply merge_sort_Permutation.
Qed.

Lemma qs_get_ordered_all {A} (R : relation (Z * A)) `{!RelDecision R}
    (t : gmap Z A) pk :
  qs_get pk (order_by R (objects_all t)) = t !! pk.
Proof.
  rewrite qs_get_order_by; [apply qs_get_objects_all|].
  apply NoDup_fst_map_to_list.
Qed.

Lemma qs_get_ordered_filter {A} (R : relation (Z * A)) `{!RelDecision R}
    (P : A → Prop) `{!∀ x, Decision (P x)} (t : gmap Z A) pk :
  qs_get pk (order_by R (objects_filter P t)) = filter (λ kv, P kv.2) t !! pk.
Proof.
  rewrite qs_get_order_by; [apply qs_get_objects_filter|].
  apply NoDup_fst_map_to_list.
Qed.

(** Unfolding of the handler monad. *)
Ltac view_simpl :=
  unfold mbind, mret, View_bind, View_ret, query, raise, modify,
    permission_denied; cbn.


Lemma get_object_eq {O V} (self : ViewSet O V) (p : BasePermission O)
    (req : Request) (pk : Z) (db : DB) (qs : QuerySet O) :
  get_queryset self req db = (inr qs, db) →
  permission_classes self = [p] →
  get_object self req pk db =
    match qs_get pk qs with
    | None => (inl Http404, db)
    | Some obj =>
        if has_object_permission p req pk obj then (inr obj, db)
        else (inl (denied req), db)
    end.
Proof.
  intros Hqs Hp. unfold get_object, check_object_permissions.
  rewrite Hp. view_simpl. rewrite Hqs.
  destruct (qs_get pk qs) as [obj|]; [|done].
  by destruct (has_object_permission p req pk obj).
Qed.

Lemma dispatch_eq {O V} (self : ViewSet O V) (p : BasePermission O)
    (req : Request) (handler : Method → option (View Response)) (db : DB) :
  permission_classes self = [p] →
  dispatch self req handler db =
    if has_permission p req then
      run (default (raise (MethodNotAllowed (method req)))
             (handler (method req))) db
    else (handle_exception (denied req), db).
Proof.
  intros Hp. unfold dispatch, check_permissions, run. rewrite Hp.
  view_simpl. destruct (has_permission p req).
  - by destruct (handler (method req)).
  - done.
Qed.

(** ** The handlers alone, whatever the imported classes and helpers do *)

Section HandlersAlone.
Context `{!Permissions, !Serializers, !PlaylistSerializerClass, !Helpers,
          !Builtins}.

Lemma get_object_release (k : ReleaseKind) (p : BasePermission Release)
    (req : Request) (pk : Z) (db : DB) :
  get_object (with_permission_classes [p] (ReleaseViewSet k)) req pk db =
    match releases k db !! pk with
    | None => (inl Http404, db)
    | Some r =>
        if has_object_permission p req pk r then (inr r, db)
        else (inl (denied req), db)
    end.
Proof.
  destruct k;
    (erewrite get_object_eq; [|reflexivity|reflexivity]);
    by rewrite qs_get_ordered_all.
Qed.

Lemma get_object_release_default (k : ReleaseKind) (req : Request) (pk : Z)
    (db : DB) :
  get_object (ReleaseViewSet k) req pk db =
    match releases k db !! pk with
    | None => (inl Http404, db)
    | Some r =>
        if has_object_permission IsArtistOrReadOnly req pk r then (inr r, db)
        else (inl (denied req), db)
    end.
Proof.
  destruct k;
    (erewrite get_object_eq; [|reflexivity|reflexivity]);
    by rewrite qs_get_ordered_all.
Qed.

Lemma get_object_user (req : Request) (pk : Z) (db : DB) :
  get_object UserViewSet req pk db =
    match users db !! pk with
    | None => (inl Http404, db)
    | Some u =>
        if has_object_permission IsUserOrReadOnly req pk u then (inr u, db)
        else (inl (denied req), db)
    end.
Proof.
  erewrite get_object_eq; [|reflexivity|reflexivity].
  by rewrite qs_get_ordered_all.
Qed.

Lemma get_object_playlist (req : Request) (u pk : Z) (db : DB) :
  user req = Some u →
  get_object PlaylistViewSet req pk db =
    match filter (λ kv, owner kv.2 = u) (playlists db) !! pk with
    | None => (inl Http404, db)
    | Some p =>
        if has_object_permission IsPlaylistOwner req pk p then (inr p, db)
        else (inl (denied req), db)
    end.
Proof.
  intros Hu. erewrite get_object_eq; [|cbn|reflexivity].
  2: { unfold PlaylistViewSet_get_queryset. rewrite Hu. reflexivity. }
  by rewrite qs_get_ordered_filter.
Qed.

Lemma playlist_hidden (req : Request) (u pk : Z) (p : Playlist) (db : DB) :
  user req = Some u → playlists db !! pk = Some p → owner p ≠ u →
  get_object PlaylistViewSet req pk db = (inl Http404, db).
Proof.
  intros Hu Hp Hne. rewrite (get_object_playlist req u) by done.
  rewrite map_lookup_filter_None_2; [done|].
  right. intros p' Hp'. simpl. congruence.
Qed.

Lemma playlist_visible (req : Request) (pk : Z) (p : Playlist) (db : DB) :
  user req = Some (owner p) → playlists db !! pk = Some p →
  has_object_permission IsPlaylistOwner req pk p = true →
  get_object PlaylistViewSet req pk db = (inr p, db).
Proof.
  intros Hu Hp Hperm. rewrite (get_object_playlist req (owner p)) by done.
  rewrite (map_lookup_filter_Some_2 _ _ pk p) by done. by rewrite Hperm.
Qed.

Lemma manage_requested_artists_eq (k : ReleaseKind) (req : Request) (pk : Z)
    (entity : Release) (db : DB) :
  (method req = POST ∨ method req = DELETE) →
  releases k db !! pk = Some entity →
  has_permission IsArtistOrReadOnly req = true →
  manage_requested_artists k req pk db =
    if has_object_permission IsArtistOrReadOnly req pk entity then
      match data_get req "artist_id" with
      | None =>
          ({| status := HTTP_400_BAD_REQUEST;
              body := Errors [("artist_id", "This field is required.")] |}, db)
      | Some artist_id =>
          run (artist ← get_object_or_404 users artist_id;
               if decide (method req = POST)
               then add_artist_to_requested k (pk, entity) artist (user req)
               else remove_artist_from_requested k (pk, entity) artist (user req))
              db
      end
    else (handle_exception (denied req), db).
Proof.
  intros Hm Hent Hperm. unfold manage_requested_artists.
  rewrite (dispatch_eq _ IsArtistOrReadOnly) by (by destruct k).
  rewrite Hperm.
  assert (∀ h : View Response,
    default (raise (MethodNotAllowed (method req)))
      match method req with POST | DELETE => Some h | _ => None end = h)
    as -> by (intros h; by destruct Hm as [-> | ->]).
  unfold run, ReleaseMixin_manage_requested_artists.
  unfold mbind at 1, View_bind at 1.
  rewrite get_object_release_default, Hent.
  destruct (has_object_permission IsArtistOrReadOnly req pk entity); [|done].
  by destruct (data_get req "artist_id").
Qed.

Lemma manage_songs_eq (req : Request) (pk : Z) (playlist : Playlist) (db : DB) :
  (method req = POST ∨ method req = DELETE) →
  playlists db !! pk = Some playlist →
  user req = Some (owner playlist) →
  has_permission IsPlaylistOwner req = true →
  has_object_permission IsPlaylistOwner req pk playlist = true →
  manage_songs req pk db =
    match data_get req "song_id" with
    | None =>
        ({| status := HTTP_400_BAD_REQUEST;
            body := Errors [("song_id", "This field is required.")] |}, db)
    | Some song_id =>
        run (song ← get_object_or_404 songs song_id;
             if decide (method req = POST)
             then add_song_to_playlist (pk, playlist) song
             else remove_song_from_playlist (pk, playlist) song)
            db
    end.
Proof.
  intros Hm Hpl Hu Hperm Hobj. unfold manage_songs.
  rewrite (dispatch_eq _ IsPlaylistOwner) by done.
  rewrite Hperm.
  assert (∀ h : View Response,
    default (raise (MethodNotAllowed (method req)))
      match method req with POST | DELETE => Some h | _ => None end = h)
    as -> by (intros h; by destruct Hm as [-> | ->]).
  unfold run, PlaylistViewSet_manage_songs.
  unfold mbind at 1, View_bind at 1.
  rewrite (playlist_visible req pk playlist) by done.
  by destruct (data_get req "song_id").
Qed.

Lemma get_object_or_404_missing {A} (table : DB → gmap Z A) (v : Value) (n : Z)
    (k : Z * A → View Response) (db : DB) :
  to_python v = Some n → table db !! n = None →
  run (obj ← get_object_or_404 table v; k obj) db =
    ({| status := HTTP_404_NOT_FOUND; body := Detail "Not found." |}, db).
Proof.
  intros Hv Hn. unfold run, get_object_or_404. rewrite Hv. view_simpl.
  by rewrite Hn.
Qed.

Lemma get_object_or_404_found {A} (table : DB → gmap Z A) (v : Value) (n : Z)
    (x : A) (k : Z * A → View Response) (db : DB) :
  to_python v = Some n → table db !! n = Some x →
  run (obj ← get_object_or_404 table v; k obj) db = run (k (n, x)) db.
Proof.
  intros Hv Hn. unfold run, get_object_or_404. rewrite Hv. view_simpl.
  by rewrite Hn.
Qed.

Lemma playlists_detail_hidden (req : Request) (u pk : Z) (p : Playlist)
    (db : DB) :
  user req = Some u → playlists db !! pk = Some p → owner p ≠ u →
  has_permission IsPlaylistOwner req = true →
  method req ≠ POST →
  playlists_detail req pk db =
    ({| status := HTTP_404_NOT_FOUND; body := Detail "Not found." |}, db).
Proof.
  intros Hu Hp Hne Hperm Hm. unfold playlists_detail.
  rewrite (dispatch_eq _ IsPlaylistOwner) by done. rewrite Hperm.
  pose proof (playlist_hidden req u pk p db Hu Hp Hne) as Hget.
  destruct (method req); [|done|..]; cbn [from_option id];
    unfold run, retrieve, generic_update, generic_destroy;
    unfold mbind at 1, View_bind at 1; by rewrite Hget.
Qed.

(** C5: a request to [manage_requested_artists] (POST or DELETE) on an
    existing release by an actor the permission class lets through is
    answered 400, with [artist_id] keyed to "This field is required.", when
    the body has no [artist_id], and 404 "Not found." when [artist_id] names
    no user; the same holds of [manage_songs] and [song_id] on a playlist of
    the actor.  In each case the tables are as before, and this for every
    instance of the helpers: none of them is run. *)
Theorem manage_actions_reject_before_helper (req : Request) (pk : Z) (db : DB) :
  (method req = POST ∨ method req = DELETE) →
  (∀ k entity,
     releases k db !! pk = Some entity →
     has_permission IsArtistOrReadOnly req = true →
     has_object_permission IsArtistOrReadOnly req pk entity = true →
     (data_get req "artist_id" = None →
      manage_requested_artists k req pk db =
        ({| status := HTTP_400_BAD_REQUEST;
            body := Errors [("artist_id", "This field is required.")] |}, db)) ∧
     (∀ v n, data_get req "artist_id" = Some v → to_python v = Some n →
             users db !! n = None →
      manage_requested_artists k req pk db =
        ({| status := HTTP_404_NOT_FOUND; body := Detail "Not found." |}, db))) ∧
  (∀ playlist,
     playlists db !! pk = Some playlist →
     user req = Some (owner playlist) →
     has_permission IsPlaylistOwner req = true →
     has_object_permission IsPlaylistOwner req pk playlist = true →
     (data_get req "song_id" = None →
      manage_songs req pk db =
        ({| status := HTTP_400_BAD_REQUEST;
            body := Errors [("song_id", "This field is required.")] |}, db)) ∧
     (∀ v n, data_get req "song_id" = Some v → to_python v = Some n →
             songs db !! n = None →
      manage_songs req pk db =
        ({| status := HTTP_404_NOT_FOUND; body := Detail "Not found." |}, db))).
Proof.
  intros Hm. split.
  - intros k entity Hent Hperm Hobj.
    rewrite (manage_requested_artists_eq k req pk entity) by done.
    rewrite Hobj. split.
    + by intros ->.
    + intros v n -> Hv Hn. by apply get_object_or_404_missing with n.
  - intros playlist Hpl Hu Hperm Hobj.
    rewrite (manage_songs_eq req pk playlist) by done. split.
    + by intros ->.
    + intros v n -> Hv Hn. by apply get_object_or_404_missing with n.
Qed.

(** C7: whenever the creation of a Song or an Album by an authenticated user
    succeeds (201), the row stored under the new key is the row the
    serializer made with the user added to its artists; so the user is among
    the artists, whatever artists were submitted.  This holds for every
    serializer. *)
Theorem creator_becomes_artist (k : ReleaseKind) (terms : list string)
    (req : Request) (U : Z) (db db' : DB) (resp : Response) :
  method req = POST →
  user req = Some U →
  releases_list k terms req db = (resp, db') →
  status resp = HTTP_201_CREATED →
  ∃ pk v obj r,
    run_validation (serializer_class (ReleaseViewSet k)) db req None false = inr v ∧
    create (serializer_class (ReleaseViewSet k)) req v = Some obj ∧
    r = set_artists (artists obj ∪ {[U]}) obj ∧
    releases k db !! pk = None ∧
    releases k db' !! pk = Some r ∧
    U ∈ artists r ∧
    body resp = ReleaseData k pk r ∧
    (∀ pk', pk' ≠ pk → releases k db' !! pk' = releases k db !! pk').
Proof.
  intros Hm Hu. unfold releases_list.
  rewrite (dispatch_eq _ IsArtistOrReadOnly) by (by destruct k).
  destruct (has_permission IsArtistOrReadOnly req);
    [|intros [= <- <-] Hs; destruct (denied req); by vm_compute in Hs].
  rewrite Hm. cbn [default]. unfold run, generic_create, is_valid.
  unfold ReleaseMixin_perform_create, save_new. rewrite Hu.
  view_simpl.
  destruct (run_validation (serializer_class (ReleaseViewSet k)) db req None false)
    as [errs|v] eqn:Hv; [intros [= <- <-] Hs; by vm_compute in Hs|].
  destruct (create (serializer_class (ReleaseViewSet k)) req v) as [obj|] eqn:Hc;
    [|intros [= <- <-] Hs; by vm_compute in Hs].
  cbn.
  assert (releases k db !! next_pk (releases k db) = None) as Hfresh
    by apply next_pk_fresh.
  destruct k; cbn in *; rewrite lookup_alter_eq, lookup_insert_eq; cbn;
    intros [= <- <-] _;
    (eexists _, v, obj, _; repeat split; try done; cbn).
  all: try (by rewrite lookup_alter_eq, lookup_insert_eq).
  all: try set_solver.
  all: intros pk' Hne; by rewrite lookup_alter_ne, lookup_insert_ne.
Qed.

End HandlersAlone.

(** ** Query sets: order and search *)

Global Instance null_first_le_total : Total null_first_le.
Proof. intros [x|] [y|]; simpl; auto. lia. Qed.
Global Instance null_first_le_trans : Transitive null_first_le.
Proof. intros [x|] [y|] [z|]; simpl; auto; try tauto. lia. Qed.

Global Instance asc_total {A K} (le : relation K) `{!Total le} (col : A → K) :
  Total (asc le col).
Proof. intros r1 r2. unfold asc. apply total, _. Qed.
Global Instance asc_trans {A K} (le : relation K) `{!Transitive le}
  (col : A → K) : Transitive (asc le col).
Proof. intros r1 r2 r3. unfold asc. apply transitivity. Qed.
Global Instance desc_total {A K} (le : relation K) `{!Total le} (col : A → K) :
  Total (desc le col).
Proof. intros r1 r2. unfold desc. apply total, _. Qed.
Global Instance desc_trans {A K} (le : relation K) `{!Transitive le}
  (col : A → K) : Transitive (desc le col).
Proof. intros r1 r2 r3. unfold desc. intros H1 H2. by transitivity (col r2.2). Qed.

Lemma order_by_sorted {A} (R : relation (Z * A)) `{!RelDecision R}
    `{!Total R, !Transitive R} (qs : QuerySet A) :
  StronglySorted R (order_by R qs).
Proof. apply StronglySorted_merge_sort; apply _. Qed.

Lemma elem_of_order_by {A} (R : relation (Z * A)) `{!RelDecision R}
    (qs : QuerySet A) (row : Z * A) :
  row ∈ order_by R qs ↔ row ∈ qs.
Proof. unfold order_by. by rewrite merge_sort_Permutation. Qed.

Lemma NoDup_order_by {A} (R : relation (Z * A)) `{!RelDecision R}
    (qs : QuerySet A) :
  NoDup qs.*1 → NoDup (order_by R qs).*1.
Proof. unfold order_by. by rewrite merge_sort_Permutation. Qed.

Lemma StronglySorted_filter {A} (R : relation A) (P : A → Prop)
    `{!∀ x, Decision (P x)} (l : list A) :
  StronglySorted R l → StronglySorted R (filter P l).
Proof.
  induction 1 as [|x l Hl IH Hx]; [constructor|].
  rewrite filter_cons. destruct (decide (P x)); [|done].
  constructor; [done|]. apply Forall_forall. intros y [_ Hy]%list_elem_of_filter.
  by eapply Forall_forall in Hx.
Qed.

Lemma NoDup_fst_filter {A} (P : Z * A → Prop) `{!∀ x, Decision (P x)}
    (l : QuerySet A) :
  NoDup l.*1 → NoDup (filter P l).*1.
Proof.
  induction l as [|x l IH]; [done|].
  rewrite filter_cons, fmap_cons. intros [Hx Hl]%NoDup_cons.
  destruct (decide (P x)); [|by apply IH].
  rewrite fmap_cons. apply NoDup_cons. split; [|by apply IH].
  intros ((k & y) & Hk & [_ Hin]%list_elem_of_filter)%list_elem_of_fmap.
  apply Hx. apply list_elem_of_fmap. by exists (k, y).
Qed.

Lemma SearchFilter_eq {A} (sf : DB → A → list (list (option string)))
    (terms : list string) (qs : QuerySet A) (db : DB) :
  SearchFilter sf terms qs db = (inr (searched sf terms db qs), db).
Proof. unfold SearchFilter, searched. by destruct terms. Qed.

Lemma search_row_spec (terms : list string) (cols : list (option string)) :
  search_row terms cols = true ↔
  Forall (λ t, ∃ s, Some s ∈ cols ∧ icontains t s = true) terms.
Proof.
  unfold search_row. rewrite forallb_forall, Forall_forall.
  split; intros Hall t Ht.
  - apply list_elem_of_In, Hall, existsb_exists in Ht as ([s|] & Hin & Hs);
      [|done]. exists s. split; [by apply list_elem_of_In|done].
  - apply list_elem_of_In, Hall in Ht as (s & Hin & Hs).
    apply existsb_exists. exists (Some s). split; [by apply list_elem_of_In|done].
Qed.

Lemma searched_sorted {A} (R : relation (Z * A))
    (sf : DB → A → list (list (option string))) terms db (qs : QuerySet A) :
  StronglySorted R qs → StronglySorted R (searched sf terms db qs).
Proof.
  unfold searched. destruct terms; [done|]. apply StronglySorted_filter.
Qed.

Lemma searched_NoDup {A} (sf : DB → A → list (list (option string))) terms db
    (qs : QuerySet A) :
  NoDup qs.*1 → NoDup (searched sf terms db qs).*1.
Proof.
  unfold searched. destruct terms; [done|]. apply NoDup_fst_filter.
Qed.

Lemma elem_of_searched {A} (sf : DB → A → list (list (option string))) terms db
    (qs : QuerySet A) (row : Z * A) :
  sf db row.2 ≠ [] →
  row ∈ searched sf terms db qs ↔
  row ∈ qs ∧ ∃ cols, cols ∈ sf db row.2 ∧ search_row terms cols = true.
Proof.
  intros Hne. unfold searched. destruct terms as [|t terms].
  - split; [|by intros [? _]]. intros Hin. split; [done|].
    destruct (sf db row.2) as [|cols rest]; [done|].
    exists cols. split; [apply list_elem_of_here|done].
  - rewrite list_elem_of_filter. rewrite Is_true_true, existsb_exists.
    split.
    + intros [(cols & Hin & Hs) Hrow]. split; [done|].
      exists cols. by rewrite list_elem_of_In.
    + intros [Hrow (cols & Hin & Hs)]. split; [|done].
      exists cols. by rewrite <-list_elem_of_In.
Qed.

Lemma generic_list_eq {O V} (self : ViewSet O V)
    (sf : DB → O → list (list (option string))) (terms : list string)
    (req : Request) (db : DB) (qs : QuerySet O) :
  get_queryset self req db = (inr qs, db) →
  search self = SearchFilter sf →
  generic_list self terms req db =
    (inr {| status := HTTP_200_OK;
            body := results self (searched sf terms db qs) |}, db).
Proof.
  intros Hqs Hs. unfold generic_list, filter_queryset. rewrite Hs.
  unfold mbind, View_bind. rewrite Hqs, SearchFilter_eq. reflexivity.
Qed.

Lemma elem_of_objects_all {A} (t : gmap Z A) (pk : Z) (x : A) :
  (pk, x) ∈ objects_all t ↔ t !! pk = Some x.
Proof. apply elem_of_map_to_list. Qed.

Lemma elem_of_objects_filter {A} (P : A → Prop) `{!∀ x, Decision (P x)}
    (t : gmap Z A) (pk : Z) (x : A) :
  (pk, x) ∈ objects_filter P t ↔ t !! pk = Some x ∧ P x.
Proof.
  unfold objects_filter. rewrite elem_of_map_to_list.
  by rewrite map_lookup_filter_Some.
Qed.

Lemma size_remove_member (X : gset Z) (x : Z) :
  x ∈ X → size (X ∖ {[x]}) + 1 = size X.
Proof.
  intros Hx.
  assert (X = {[x]} ∪ X ∖ {[x]}) as HX.
  { apply set_eq. intros y. rewrite elem_of_union, elem_of_difference,
      elem_of_singleton. destruct (decide (y = x)) as [->|]; tauto. }
  rewrite HX at 2.
  rewrite (size_union (C:=gset Z) {[x]} (X ∖ {[x]})).
  - rewrite size_singleton. lia.
  - apply disjoint_singleton_l, not_elem_of_difference. right.
    by apply elem_of_singleton.
Qed.

Lemma size_add_new (X : gset Z) (x : Z) :
  x ∉ X → size (X ∪ {[x]}) = size X + 1.
Proof.
  intros Hx. rewrite (size_union (C:=gset Z) X {[x]}).
  - by rewrite size_singleton.
  - by apply disjoint_singleton_r.
Qed.

Lemma add_member (X : gset Z) (x : Z) : x ∈ X → X ∪ {[x]} = X.
Proof.
  intros Hx. apply set_eq. intros y.
  rewrite elem_of_union, elem_of_singleton. intuition congruence.
Qed.

Lemma remove_member_gone (X : gset Z) (x : Z) : x ∉ X ∖ {[x]}.
Proof. apply not_elem_of_difference. right. by apply elem_of_singleton. Qed.

(** ** The handlers with the imported classes and helpers of the
    specification *)

Section Modelled.
Context `{!Serializers, !Builtins}.
Local Existing Instances modelled_permissions modelled_helpers
  modelled_playlist_serializer.

Lemma users_detail_delete_eq (db : DB) (U : Z) (u : User) (req : Request) :
  users db !! U = Some u →
  method req = DELETE →
  user req = Some U →
  users_detail req U db =
    ({| status := HTTP_204_NO_CONTENT; body := NoBody |},
     set_users (<[U := set_is_active false u]> (users db)) db).
Proof.
  intros Hu Hm Hreq.
  unfold users_detail. rewrite (dispatch_eq _ IsUserOrReadOnly) by done.
  rewrite Hm.
  cbn [has_permission IsUserOrReadOnly modelled_permissions
       permissions.IsUserOrReadOnly from_option id].
  unfold run, UserViewSet_destroy. unfold mbind at 1, View_bind at 1.
  rewrite get_object_user, Hu. cbn. rewrite Hm, Hreq. cbn.
  by rewrite bool_decide_eq_true_2.
Qed.

(** C8: a DELETE on the detail route of a user by that user is answered 204
    with no content and is a soft delete: the row stays, with the active
    flag false and every other column as before; the number of users, the
    other users and the other tables are unchanged. *)
Theorem user_soft_delete (db : DB) (U : Z) (u : User) (req : Request) :
  users db !! U = Some u →
  method req = DELETE →
  user req = Some U →
  ∃ db' u',
    users_detail req U db =
      ({| status := HTTP_204_NO_CONTENT; body := NoBody |}, db') ∧
    users db' !! U = Some u' ∧
    is_active u' = false ∧
    (username u' = username u ∧ password u' = password u ∧
     first_name u' = first_name u ∧ last_name u' = last_name u ∧
     birth_date u' = birth_date u ∧ country u' = country u ∧
     email u' = email u) ∧
    size (users db') = size (users db) ∧
    (∀ V, V ≠ U → users db' !! V = users db !! V) ∧
    songs db' = songs db ∧ albums db' = albums db ∧
    playlists db' = playlists db.
Proof.
  intros Hu Hm Hreq.
  exists (set_users (<[U := set_is_active false u]> (users db)) db),
         (set_is_active false u).
  split; [by apply users_detail_delete_eq|repeat split].
  - cbn. by rewrite lookup_insert_eq.
  - cbn. by eapply map_size_insert_Some.
  - intros V HV. cbn. by rewrite lookup_insert_ne.
Qed.

(** C10: the soft delete is idempotent.  A second DELETE by the user is
    answered 204 again and leaves the tables exactly as the first left them,
    the row present with the active flag false. *)
Theorem user_soft_delete_twice (db : DB) (U : Z) (u : User)
    (req1 req2 : Request) :
  users db !! U = Some u →
  method req1 = DELETE → user req1 = Some U →
  method req2 = DELETE → user req2 = Some U →
  ∃ db' u',
    users_detail req1 U db =
      ({| status := HTTP_204_NO_CONTENT; body := NoBody |}, db') ∧
    users_detail req2 U db' =
      ({| status := HTTP_204_NO_CONTENT; body := NoBody |}, db') ∧
    users db' !! U = Some u' ∧ is_active u' = false.
Proof.
  intros Hu Hm1 Hu1 Hm2 Hu2.
  exists (set_users (<[U := set_is_active false u]> (users db)) db),
         (set_is_active false u).
  split; [by apply users_detail_delete_eq|].
  split; [|split; [cbn; by rewrite lookup_insert_eq|done]].
  rewrite (users_detail_delete_eq _ U (set_is_active false u)); try done.
  - cbn. by rewrite insert_insert_eq.
  - cbn. by rewrite lookup_insert_eq.
Qed.

(** C2: a GET, PUT, PATCH or DELETE on the detail route of a playlist by an
    authenticated user other than its owner is answered 404 with the detail
    "Not found." (and so never 403), with the tables unchanged: the playlist
    is not in the query set of the caller, and the lookup fails before any
    object permission is asked. *)
Theorem playlist_of_another_user_not_found (db : DB) (pk : Z) (p : Playlist)
    (Y : Z) (req : Request) :
  playlists db !! pk = Some p →
  user req = Some Y →
  Y ≠ owner p →
  (method req = GET ∨ method req = PUT ∨ method req = PATCH ∨
   method req = DELETE) →
  playlists_detail req pk db =
    ({| status := HTTP_404_NOT_FOUND; body := Detail "Not found." |}, db).
Proof.
  intros Hp Hu Hne Hm.
  apply playlists_detail_hidden with Y p; [done|done|done| |].
  - cbn. unfold is_authenticated. by rewrite Hu.
  - destruct Hm as [->|[->|[->| ->]]]; done.
Qed.

Lemma release_has_permission (req : Request) (u : Z) :
  user req = Some u → has_permission IsArtistOrReadOnly req = true.
Proof.
  intros Hu. cbn. unfold is_authenticated. rewrite Hu. apply orb_true_r.
Qed.

Lemma remove_current_user_as_artist_eq (k : ReleaseKind) (db : DB) (pk : Z)
    (r : Release) (A : Z) (req : Request) :
  releases k db !! pk = Some r → A ∈ artists r →
  method req = DELETE → user req = Some A →
  remove_current_user_as_artist k req pk db =
    ({| status := HTTP_200_OK;
        body := ReleaseData k pk (set_artists (artists r ∖ {[A]}) r) |},
     set_releases k (<[pk := set_artists (artists r ∖ {[A]}) r]> (releases k db)) db).
Proof.
  intros Hr HA Hm Hu. unfold remove_current_user_as_artist.
  rewrite (dispatch_eq _ IsArtistOrReadOnly) by (by destruct k).
  rewrite (release_has_permission req A) by done.
  rewrite Hm. cbn [from_option id].
  unfold run, ReleaseMixin_remove_current_user_as_artist.
  unfold mbind at 1, View_bind at 1.
  rewrite get_object_release_default, Hr. cbn. rewrite Hm, Hu. cbn.
  by rewrite bool_decide_eq_true_2.
Qed.

(** C6: when the artists of a release are exactly one user, a DELETE to
    [remove_current_user_as_artist] by that user is answered 200 and leaves
    the release stored, with no artist: no least number of artists is
    kept. *)
Theorem last_artist_may_leave (k : ReleaseKind) (db : DB) (pk : Z)
    (r : Release) (A : Z) (req : Request) :
  releases k db !! pk = Some r →
  artists r = {[A]} →
  method req = DELETE →
  user req = Some A →
  ∃ r' db',
    remove_current_user_as_artist k req pk db =
      ({| status := HTTP_200_OK; body := ReleaseData k pk r' |}, db') ∧
    releases k db' !! pk = Some r' ∧
    artists r' = ∅ ∧ size (artists r') = 0 ∧
    requested_artists r' = requested_artists r ∧
    dom (releases k db') = dom (releases k db).
Proof.
  intros Hr Hart Hm Hu.
  eexists _, _. split.
  { apply (remove_current_user_as_artist_eq k db pk r A req); [done| |done..].
    rewrite Hart. by apply elem_of_singleton. }
  assert (artists r ∖ {[A]} = (∅ : gset Z)) as Hempty.
  { rewrite Hart. apply difference_diag_L. }
  apply elem_of_dom_2 in Hr.
  destruct k; cbn in *; rewrite lookup_insert_eq, Hempty, dom_insert_L;
    repeat split; try done;
    by apply subseteq_union_1_L, singleton_subseteq_l.
Qed.

Lemma confirm_current_user_as_artist_eq (k : ReleaseKind) (db : DB) (pk : Z)
    (r : Release) (req : Request) :
  releases k db !! pk = Some r →
  method req = POST →
  confirm_current_user_as_artist k req pk db =
    match user req with
    | None => (handle_exception NotAuthenticated, db)
    | Some C =>
        if decide (C ∈ requested_artists r) then
          let r' := set_artists (artists r ∪ {[C]})
                      (set_requested_artists (requested_artists r ∖ {[C]}) r) in
          ({| status := HTTP_200_OK; body := ReleaseData k pk r' |},
           set_releases k (<[pk := r']> (releases k db)) db)
        else (handle_exception PermissionDenied, db)
    end.
Proof.
  intros Hr Hm. unfold confirm_current_user_as_artist.
  rewrite (dispatch_eq _ IsRequestedArtist) by (by destruct k).
  rewrite Hm. cbn [has_permission IsRequestedArtist modelled_permissions
                   permissions.IsRequestedArtist from_option id].
  unfold run, ReleaseMixin_confirm_current_user_as_artist.
  unfold mbind at 1, View_bind at 1.
  rewrite get_object_release, Hr. cbn. unfold denied, is_authenticated.
  destruct (user req) as [C|]; [|done]. cbn.
  destruct (decide (C ∈ requested_artists r)).
  - by rewrite bool_decide_eq_true_2.
  - by rewrite bool_decide_eq_false_2.
Qed.

(** C1, as amended: a POST to [confirm_current_user_as_artist] on a release
    by a user of its requested artists is answered 200 and stores the
    release with the user taken out of the requested artists and put among
    the artists, in one step.  The requested artists are one fewer; the
    artists are one more when the user was not yet an artist, and as many as
    before when the user already was.  A user who is not among the requested
    artists is refused (403, or 401 when anonymous) and nothing changes. *)
Theorem confirm_moves_requested_to_artists (k : ReleaseKind) (db : DB)
    (pk : Z) (r : Release) (req : Request) :
  releases k db !! pk = Some r →
  method req = POST →
  (∀ C, user req = Some C → C ∈ requested_artists r →
     ∃ r' db',
       confirm_current_user_as_artist k req pk db =
         ({| status := HTTP_200_OK; body := ReleaseData k pk r' |}, db') ∧
       releases k db' !! pk = Some r' ∧
       requested_artists r' = requested_artists r ∖ {[C]} ∧
       artists r' = artists r ∪ {[C]} ∧
       size (requested_artists r') + 1 = size (requested_artists r) ∧
       (C ∉ artists r → size (artists r') = size (artists r) + 1) ∧
       (C ∈ artists r → size (artists r') = size (artists r))) ∧
  (∀ C, user req = Some C → C ∉ requested_artists r →
     confirm_current_user_as_artist k req pk db =
       ({| status := HTTP_403_FORBIDDEN;
           body := Detail "You do not have permission to perform this action." |},
        db)) ∧
  (user req = None →
     confirm_current_user_as_artist k req pk db =
       ({| status := HTTP_401_UNAUTHORIZED;
           body := Detail "Authentication credentials were not provided." |},
        db)).
Proof.
  intros Hr Hm.
  rewrite (confirm_current_user_as_artist_eq k db pk r req Hr Hm).
  repeat split.
  - intros C -> HC. rewrite decide_True by done.
    eexists _, _. split; [reflexivity|].
    repeat split.
    + destruct k; cbn; by rewrite lookup_insert_eq.
    + cbn. by apply size_remove_member.
    + cbn. by apply size_add_new.
    + cbn. intros HA. by rewrite add_member.
  - intros C -> HC. by rewrite decide_False.
  - by intros ->.
Qed.

(** C4, as amended: a user who is among the requested artists of a release
    and not among its artists cannot withdraw the request: a DELETE to
    [manage_requested_artists] by that user is refused with 403, whatever
    the body, and nothing changes.  It is a current artist of the release
    who removes the candidate: the DELETE by an artist with the candidate
    as [artist_id] is answered 200 and takes the candidate out of the
    requested artists. *)
Theorem requested_candidate_is_removed_by_an_artist (k : ReleaseKind)
    (db : DB) (pk : Z) (r : Release) (C : Z) :
  releases k db !! pk = Some r →
  C ∈ requested_artists r →
  C ∉ artists r →
  (∀ req,
     method req = DELETE → user req = Some C →
     manage_requested_artists k req pk db =
       ({| status := HTTP_403_FORBIDDEN;
           body := Detail "You do not have permission to perform this action." |},
        db)) ∧
  (∀ req A v c,
     method req = DELETE → user req = Some A → A ∈ artists r →
     data_get req "artist_id" = Some v → to_python v = Some C →
     users db !! C = Some c →
     ∃ r' db',
       manage_requested_artists k req pk db =
         ({| status := HTTP_200_OK; body := ReleaseData k pk r' |}, db') ∧
       releases k db' !! pk = Some r' ∧
       requested_artists r' = requested_artists r ∖ {[C]} ∧
       (C ∉ requested_artists r') ∧
       artists r' = artists r).
Proof.
  intros Hr HC HnA. split.
  - intros req Hm Hu.
    rewrite (manage_requested_artists_eq k req pk r) by
      eauto using release_has_permission.
    cbn. rewrite Hm, Hu. cbn. rewrite bool_decide_eq_false_2 by done.
    unfold denied, is_authenticated. by rewrite Hu.
  - intros req A v c Hm Hu HA Hv HvC Hc.
    rewrite (manage_requested_artists_eq k req pk r) by
      eauto using release_has_permission.
    cbn [has_object_permission IsArtistOrReadOnly modelled_permissions
         permissions.IsArtistOrReadOnly].
    rewrite Hm, Hu, Hv. cbn [SAFE_METHODS orb].
    rewrite bool_decide_eq_true_2 by done.
    rewrite (get_object_or_404_found users v C c) by done.
    rewrite decide_False by done.
    cbn. unfold helpers.remove_artist_from_requested. cbn.
    rewrite decide_True by done. cbn.
    eexists _, _. split; [reflexivity|]. repeat split.
    + destruct k; cbn; by rewrite lookup_insert_eq.
    + cbn. apply remove_member_gone.
Qed.

Lemma playlist_has_permission (req : Request) (u : Z) :
  user req = Some u → has_permission IsPlaylistOwner req = true.
Proof. intros Hu. cbn. unfold is_authenticated. by rewrite Hu. Qed.

Lemma playlists_detail_update_eq (db : DB) (pk : Z) (p : Playlist)
    (req : Request) :
  playlists db !! pk = Some p →
  user req = Some (owner p) →
  (method req = PUT ∨ method req = PATCH) →
  playlists_detail req pk db =
    match serializers.validate_title req (bool_decide (method req = PATCH)) with
    | inl errs => ({| status := HTTP_400_BAD_REQUEST; body := Errors errs |}, db)
    | inr t =>
        ({| status := HTTP_200_OK;
            body := PlaylistData pk (updated_playlist t p) |},
         set_playlists (<[pk := updated_playlist t p]> (playlists db)) db)
    end.
Proof.
  intros Hp Hu Hm. unfold playlists_detail.
  rewrite (dispatch_eq _ IsPlaylistOwner) by done.
  rewrite (playlist_has_permission req (owner p)) by done.
  assert (has_object_permission IsPlaylistOwner req pk p = true) as Hobj.
  { cbn. by rewrite bool_decide_eq_true_2. }
  pose proof (playlist_visible req pk p db Hu Hp Hobj) as Hget.
  destruct Hm as [Hm|Hm]; rewrite Hm; cbn [from_option id];
    unfold run, generic_update; unfold mbind at 1, View_bind at 1;
    rewrite Hget; unfold is_valid; view_simpl;
    by destruct (serializers.validate_title req _).
Qed.

Lemma playlists_list_create_eq (db : DB) (terms : list string) (U : Z)
    (req : Request) :
  method req = POST →
  user req = Some U →
  playlists_list terms req db =
    match serializers.validate_title req false with
    | inl errs => ({| status := HTTP_400_BAD_REQUEST; body := Errors errs |}, db)
    | inr t =>
        let p := {| pl_title := default "" t; owner := U; pl_songs := ∅;
                    created_at := now req |} in
        let pk := next_pk (playlists db) in
        ({| status := HTTP_201_CREATED; body := PlaylistData pk p |},
         set_playlists (<[pk := p]> (playlists db)) db)
    end.
Proof.
  intros Hm Hu. unfold playlists_list.
  rewrite (dispatch_eq _ IsPlaylistOwner) by done.
  rewrite (playlist_has_permission req U) by done.
  rewrite Hm. cbn [from_option id].
  unfold run, generic_create, is_valid, PlaylistViewSet_perform_create, save_new.
  rewrite Hu. view_simpl.
  destruct (serializers.validate_title req false) as [errs|t]; [done|].
  cbn. by rewrite lookup_insert_eq.
Qed.

(** C3, as amended: the owner of a playlist cannot be changed through the
    routes.  A creation that succeeds stores the caller as owner, whatever
    owner the body names.  An update (PUT or PATCH) by the owner never
    changes the stored owner, whatever owner the body names: when the title
    passes validation (present on a PUT, not empty) it is applied and the
    answer is 200 with the original owner; when it does not, the answer is
    400 and the tables are as before. *)
Theorem playlist_owner_is_kept (db : DB) (req : Request) (U : Z) :
  user req = Some U →
  (∀ terms, method req = POST →
     ∃ resp db',
       playlists_list terms req db = (resp, db') ∧
       (status resp = HTTP_201_CREATED →
        ∃ pk p, playlists db !! pk = None ∧ playlists db' !! pk = Some p ∧
                owner p = U ∧ body resp = PlaylistData pk p) ∧
       (∀ t, data req !! "title" = Some (VStr t) → t ≠ "" →
             status resp = HTTP_201_CREATED)) ∧
  (∀ pk p, playlists db !! pk = Some p → owner p = U →
     (method req = PUT ∨ method req = PATCH) →
     ∃ resp db' p',
       playlists_detail req pk db = (resp, db') ∧
       playlists db' !! pk = Some p' ∧ owner p' = U ∧
       (∀ t, serializers.validate_title req (bool_decide (method req = PATCH))
               = inr t →
             resp = {| status := HTTP_200_OK; body := PlaylistData pk p' |} ∧
             pl_title p' = default (pl_title p) t ∧
             pl_songs p' = pl_songs p ∧ created_at p' = created_at p) ∧
       (∀ errs, serializers.validate_title req (bool_decide (method req = PATCH))
                  = inl errs →
                resp = {| status := HTTP_400_BAD_REQUEST; body := Errors errs |} ∧
                db' = db)) ∧
  (∀ o : Value,
     let named := set_data (<["owner" := o]> (data req)) req in
     let unnamed := set_data (delete "owner" (data req)) req in
     (∀ terms, method req = POST →
        playlists_list terms named db = playlists_list terms unnamed db) ∧
     (∀ pk p, playlists db !! pk = Some p → owner p = U →
        (method req = PUT ∨ method req = PATCH) →
        playlists_detail named pk db = playlists_detail unnamed pk db)).
Proof.
  intros Hu. split; [|split].
  - intros terms Hm. rewrite (playlists_list_create_eq db terms U req Hm Hu).
    unfold serializers.validate_title.
    destruct (data req !! "title") as [[| |s|]|] eqn:Ht;
      try (eexists _, _; split; [reflexivity|];
           split; [intros Hs; by vm_compute in Hs|by intros t [=]]).
    destruct (decide (s = "")) as [->|Hs].
    + eexists _, _; split; [reflexivity|].
      split; [intros Hs; by vm_compute in Hs|by intros t [= <-]].
    + eexists _, _; split; [reflexivity|]. split; [|done].
      intros _.
      exists (next_pk (playlists db)),
             {| pl_title := s; owner := U; pl_songs := ∅; created_at := now req |}.
      repeat split; [apply next_pk_fresh|].
      cbn. by rewrite lookup_insert_eq.
  - intros pk p Hp <- Hm.
    rewrite (playlists_detail_update_eq db pk p req Hp Hu Hm).
    destruct (serializers.validate_title req _) as [errs|t].
    + exists {| status := HTTP_400_BAD_REQUEST; body := Errors errs |}, db, p.
      repeat split; try done. congruence.
    + eexists _, _, (updated_playlist t p). split; [reflexivity|].
      split; [cbn; by rewrite lookup_insert_eq|].
      repeat split; try done. by simplify_eq.
  - intros o named unnamed.
    assert (∀ partial, serializers.validate_title named partial =
                       serializers.validate_title unnamed partial) as Hv.
    { intros partial. unfold serializers.validate_title, named, unnamed. cbn.
      by rewrite lookup_insert_ne, lookup_delete_ne. }
    split.
    + intros terms Hm.
      rewrite (playlists_list_create_eq db terms U named) by done.
      rewrite (playlists_list_create_eq db terms U unnamed) by done.
      by rewrite Hv.
    + intros pk p Hp <- Hm.
      rewrite (playlists_detail_update_eq db pk p named) by done.
      rewrite (playlists_detail_update_eq db pk p unnamed) by done.
      by rewrite Hv.
Qed.

Lemma artists__username_spec (db : DB) (r : Release) (a : option string) :
  a ∈ artists__username db r ↔
  (artists r = ∅ ∧ a = None) ∨
  (∃ id, id ∈ artists r ∧ a = username <$> users db !! id).
Proof.
  unfold artists__username.
  destruct (elements (artists r)) as [|x l] eqn:E.
  - apply elements_empty_inv, leibniz_equiv in E. rewrite E.
    rewrite list_elem_of_singleton. split; [by left|].
    intros [[_ ->]|(id & Hid & _)]; [done|].
    by apply not_elem_of_empty in Hid.
  - rewrite list_elem_of_fmap. split.
    + intros (id & -> & Hid). right. exists id. split; [|done].
      apply elem_of_elements. by rewrite E.
    + intros [[Hempty _]|(id & Hid & ->)].
      * rewrite Hempty, elements_empty in E. done.
      * exists id. split; [done|]. rewrite <-E. by apply elem_of_elements.
Qed.

Lemma artists__username_nonempty (db : DB) (r : Release) :
  (λ a, [Some (title r); a]) <$> artists__username db r ≠ [].
Proof.
  unfold artists__username. by destruct (elements (artists r)).
Qed.

(** C9: every list route applies the ordering and the search fields of its
    view set.  On a GET the answer is 200 with the query set: users in
    ascending order of username, kept when every search term is contained
    in the username or the country; songs and albums in descending order of
    release date, kept when, for some artist of the join, every term is
    contained in the title or in the username of that artist; the playlists
    of the caller in descending order of creation time, kept when every term
    is contained in the title.  Each record is listed once and the tables
    are unchanged. *)
Theorem list_routes_order_and_search (db : DB) (terms : list string)
    (req : Request) :
  method req = GET →
  (∃ rows,
     users_list terms req db =
       ({| status := HTTP_200_OK; body := UserResults rows |}, db) ∧
     StronglySorted (asc String.le username) rows ∧
     NoDup rows.*1 ∧
     ∀ pk u, (pk, u) ∈ rows ↔
       users db !! pk = Some u ∧
       Forall (λ t, icontains t (username u) = true ∨
                    ∃ c, country u = Some c ∧ icontains t c = true) terms) ∧
  (∀ k, ∃ rows,
     releases_list k terms req db =
       ({| status := HTTP_200_OK; body := ReleaseResults k rows |}, db) ∧
     StronglySorted (desc null_first_le release_date) rows ∧
     NoDup rows.*1 ∧
     ∀ pk r, (pk, r) ∈ rows ↔
       releases k db !! pk = Some r ∧
       ∃ a, a ∈ artists__username db r ∧
            Forall (λ t, icontains t (title r) = true ∨
                         ∃ s, a = Some s ∧ icontains t s = true) terms) ∧
  (∀ U, user req = Some U → ∃ rows,
     playlists_list terms req db =
       ({| status := HTTP_200_OK; body := PlaylistResults rows |}, db) ∧
     StronglySorted (desc Z.le created_at) rows ∧
     NoDup rows.*1 ∧
     ∀ pk p, (pk, p) ∈ rows ↔
       playlists db !! pk = Some p ∧ owner p = U ∧
       Forall (λ t, icontains t (pl_title p) = true) terms).
Proof.
  intros Hm. split; [|split].
  - eexists. split; [|split; [|split]].
    + unfold users_list. rewrite (dispatch_eq _ IsUserOrReadOnly) by done.
      rewrite Hm. cbn [has_permission IsUserOrReadOnly modelled_permissions
                       permissions.IsUserOrReadOnly from_option id].
      unfold run. erewrite generic_list_eq; [reflexivity..].
    + apply searched_sorted, order_by_sorted; apply _.
    + apply searched_NoDup, NoDup_order_by, NoDup_fst_map_to_list.
    + intros pk u. rewrite elem_of_searched by done.
      rewrite elem_of_order_by, elem_of_objects_all. cbn.
      apply and_iff_compat_l. split.
      * intros (cols & ->%list_elem_of_singleton & Hs).
        apply search_row_spec in Hs. eapply Forall_impl; [done|].
        intros t (s & Hin & Hs'). cbn in Hin.
        apply elem_of_cons in Hin as [[= <-]|Hin]; [by left|].
        apply list_elem_of_singleton in Hin. right. by exists s.
      * intros Hall. eexists. split; [by apply list_elem_of_singleton|].
        apply search_row_spec. eapply Forall_impl; [done|].
        intros t [Hs|(c & Hc & Hs)].
        -- exists (username u). split; [apply list_elem_of_here|done].
        -- exists c. split; [|done]. rewrite Hc.
           apply list_elem_of_further, list_elem_of_here.
  - intros k.
    exists (searched
              (λ db r, (λ a, [Some (title r); a]) <$> artists__username db r)
              terms db
              (order_by (desc null_first_le release_date)
                 (objects_all (releases k db)))).
    split; [|split; [|split]].
    + unfold releases_list.
      rewrite (dispatch_eq _ IsArtistOrReadOnly) by (by destruct k).
      cbn [has_permission IsArtistOrReadOnly modelled_permissions
           permissions.IsArtistOrReadOnly].
      rewrite Hm. cbn [SAFE_METHODS orb from_option id].
      unfold run. destruct k; (erewrite generic_list_eq; [reflexivity..]).
    + apply searched_sorted, order_by_sorted; apply _.
    + apply searched_NoDup, NoDup_order_by, NoDup_fst_map_to_list.
    + intros pk r.
      assert (∀ cols, search_row terms cols = true →
                ∀ a, cols = [Some (title r); a] →
                Forall (λ t, icontains t (title r) = true ∨
                             ∃ s, a = Some s ∧ icontains t s = true) terms)
        as Hfwd.
      { intros cols Hs a ->. apply search_row_spec in Hs.
        eapply Forall_impl; [done|]. intros t (s & Hin & Hs').
        apply elem_of_cons in Hin as [[= <-]|Hin]; [by left|].
        apply list_elem_of_singleton in Hin. right. by exists s. }
      assert (∀ a, Forall (λ t, icontains t (title r) = true ∨
                                ∃ s, a = Some s ∧ icontains t s = true) terms →
                   search_row terms [Some (title r); a] = true) as Hbwd.
      { intros a Hall. apply search_row_spec. eapply Forall_impl; [done|].
        intros t [Hs|(s & -> & Hs)].
        - exists (title r). split; [apply list_elem_of_here|done].
        - exists s. split; [|done].
          apply list_elem_of_further, list_elem_of_here. }
      rewrite elem_of_searched by apply artists__username_nonempty.
      rewrite elem_of_order_by, elem_of_objects_all. cbn.
      apply and_iff_compat_l. split.
      * intros (cols & (a & -> & Ha)%list_elem_of_fmap & Hs).
        exists a. split; [done|]. by eapply Hfwd.
      * intros (a & Ha & Hall). eexists. split;
          [apply list_elem_of_fmap; by exists a|by apply Hbwd].
  - intros U HU. eexists. split; [|split; [|split]].
    + unfold playlists_list. rewrite (dispatch_eq _ IsPlaylistOwner) by done.
      rewrite (playlist_has_permission req U) by done.
      rewrite Hm. cbn [from_option id].
      unfold run. erewrite generic_list_eq; [reflexivity| |reflexivity].
      cbn. unfold PlaylistViewSet_get_queryset. rewrite HU. reflexivity.
    + apply searched_sorted, order_by_sorted; apply _.
    + apply searched_NoDup, NoDup_order_by, NoDup_fst_map_to_list.
    + intros pk p. rewrite elem_of_searched by done.
      rewrite elem_of_order_by, elem_of_objects_filter. cbn.
      rewrite <-(assoc and). do 2 apply and_iff_compat_l. split.
      * intros (cols & ->%list_elem_of_singleton & Hs).
        apply search_row_spec in Hs. eapply Forall_impl; [done|].
        intros t (s & Hin & Hs'). by apply list_elem_of_singleton in Hin as [= <-].
      * intros Hall. eexists. split; [by apply list_elem_of_singleton|].
        apply search_row_spec. eapply Forall_impl; [done|].
        intros t Hs. exists (pl_title p). split; [apply list_elem_of_here|done].
Qed.

End Modelled.

(** ** The properties on the fixtures *)

Section Examples.
Local Existing Instances modelled_permissions modelled_helpers
  modelled_playlist_serializer example_serializers decimal.

Lemma user_soft_delete_witness :
  ∃ db',
    users_detail (request DELETE (Some 1%Z) []) 1 fixtures =
      ({| status := HTTP_204_NO_CONTENT; body := NoBody |}, db') ∧
    (is_active <$> users db' !! 1%Z) = Some false ∧
    size (users db') = 2.
Proof.
  destruct (user_soft_delete fixtures 1 old_user (request DELETE (Some 1%Z) []))
    as (db' & u' & Heq & Hrow & Hact & _ & Hsize & _); [reflexivity..|].
  exists db'. split; [exact Heq|]. split.
  - rewrite Hrow. simpl. by rewrite Hact.
  - rewrite Hsize. reflexivity.
Defined.

Lemma user_soft_delete_twice_witness :
  ∃ db',
    users_detail (request DELETE (Some 1%Z) []) 1 fixtures =
      ({| status := HTTP_204_NO_CONTENT; body := NoBody |}, db') ∧
    users_detail (request DELETE (Some 1%Z) []) 1 db' =
      ({| status := HTTP_204_NO_CONTENT; body := NoBody |}, db').
Proof.
  destruct (user_soft_delete_twice fixtures 1 old_user
              (request DELETE (Some 1%Z) []) (request DELETE (Some 1%Z) []))
    as (db' & u' & H1 & H2 & _); [reflexivity..|].
  exists db'. by split.
Defined.

Lemma playlist_of_another_user_not_found_witness :
  playlists_detail (request PATCH (Some 1%Z) []) 2 fixtures =
    ({| status := HTTP_404_NOT_FOUND; body := Detail "Not found." |}, fixtures).
Proof.
  apply (playlist_of_another_user_not_found fixtures 2 old_playlist_2 1
           (request PATCH (Some 1%Z) [])).
  - reflexivity.
  - reflexivity.
  - simpl. lia.
  - right. right. left. reflexivity.
Defined.

Lemma last_artist_may_leave_witness :
  ∃ r' db',
    remove_current_user_as_artist Song (request DELETE (Some 1%Z) []) 1 fixtures =
      ({| status := HTTP_200_OK; body := ReleaseData Song 1 r' |}, db') ∧
    songs db' !! 1%Z = Some r' ∧ artists r' = ∅.
Proof.
  destruct (last_artist_may_leave Song fixtures 1 old_song 1
              (request DELETE (Some 1%Z) []))
    as (r' & db' & Heq & Hrow & Hempty & _); [reflexivity..|].
  exists r', db'. by repeat split.
Defined.

Lemma manage_actions_reject_before_helper_witness :
  manage_requested_artists Song (request POST (Some 1%Z) []) 1 fixtures =
    ({| status := HTTP_400_BAD_REQUEST;
        body := Errors [("artist_id", "This field is required.")] |}, fixtures) ∧
  manage_requested_artists Song
      (request DELETE (Some 1%Z) [("artist_id", VStr "3")]) 1 fixtures =
    ({| status := HTTP_404_NOT_FOUND; body := Detail "Not found." |}, fixtures) ∧
  manage_songs (request POST (Some 1%Z) []) 1 fixtures =
    ({| status := HTTP_400_BAD_REQUEST;
        body := Errors [("song_id", "This field is required.")] |}, fixtures) ∧
  manage_songs (request DELETE (Some 1%Z) [("song_id", VInt 3)]) 1 fixtures =
    ({| status := HTTP_404_NOT_FOUND; body := Detail "Not found." |}, fixtures).
Proof.
  destruct (manage_actions_reject_before_helper
              (request POST (Some 1%Z) []) 1 fixtures (or_introl eq_refl))
    as [Hartist Hsong].
  destruct (Hartist Song old_song) as [Hmissing _]; [reflexivity..|].
  destruct (Hsong old_playlist) as [Hmissing' _]; [reflexivity..|].
  destruct (manage_actions_reject_before_helper
              (request DELETE (Some 1%Z) [("artist_id", VStr "3")]) 1 fixtures
              (or_intror eq_refl))
    as [Hartist' _].
  destruct (Hartist' Song old_song) as [_ Hunknown]; [reflexivity..|].
  destruct (manage_actions_reject_before_helper
              (request DELETE (Some 1%Z) [("song_id", VInt 3)]) 1 fixtures
              (or_intror eq_refl))
    as [_ Hsong'].
  destruct (Hsong' old_playlist) as [_ Hunknown']; [reflexivity..|].
  split; [|split; [|split]].
  - apply Hmissing. reflexivity.
  - apply (Hunknown (VStr "3") 3%Z); reflexivity.
  - apply Hmissing'. reflexivity.
  - apply (Hunknown' (VInt 3) 3%Z); reflexivity.
Defined.

Lemma creator_becomes_artist_witness :
  let req := request POST (Some 2%Z)
               [("title", VStr "New song"); ("artists", VList [1%Z])] in
  ∃ pk r,
    status (releases_list Song [] req fixtures).1 = HTTP_201_CREATED ∧
    songs (releases_list Song [] req fixtures).2 !! pk = Some r ∧
    2%Z ∈ artists r.
Proof.
  intros req.
  destruct (creator_becomes_artist Song [] req 2 fixtures
              (releases_list Song [] req fixtures).2
              (releases_list Song [] req fixtures).1)
    as (pk & v & obj & r & _ & _ & _ & _ & Hrow & Hin & _);
    [reflexivity|reflexivity|apply surjective_pairing|reflexivity|].
  exists pk, r. repeat split; [exact Hrow|exact Hin].
Defined.

Lemma confirm_moves_requested_to_artists_witness :
  ∃ r' db',
    confirm_current_user_as_artist Song (request POST (Some 2%Z) []) 1
        fixtures_requested =
      ({| status := HTTP_200_OK; body := ReleaseData Song 1 r' |}, db') ∧
    size (requested_artists r') + 1 = 1 ∧
    size (artists r') = 2.
Proof.
  destruct (confirm_moves_requested_to_artists Song fixtures_requested 1
              (set_requested_artists {[2%Z]} old_song)
              (request POST (Some 2%Z) []))
    as [Hok _]; [reflexivity..|].
  destruct (Hok 2%Z) as (r' & db' & Heq & _ & _ & _ & Hreq & Hart & _);
    [reflexivity|by vm_compute|].
  exists r', db'. repeat split; [exact Heq|exact Hreq|].
  rewrite Hart; [reflexivity|].
  intros Hin. by vm_compute in Hin.
Defined.

(** C1 as stated fails where the confirming user is already an artist.  The
    first user, an artist of the first song, is requested (by a POST of the
    first user to [manage_requested_artists]) and confirms: the artists are
    as many as before, not one more. *)
Lemma confirm_of_an_artist_keeps_the_count :
  let db := (manage_requested_artists Song
               (request POST (Some 1%Z) [("artist_id", VInt 1)]) 1 fixtures).2 in
  ¬ (∀ (k : ReleaseKind) (pk : Z) (r : Release) (C : Z) (req : Request),
       releases k db !! pk = Some r →
       C ∈ requested_artists r →
       method req = POST →
       user req = Some C →
       ∃ r' db',
         confirm_current_user_as_artist k req pk db =
           ({| status := HTTP_200_OK; body := ReleaseData k pk r' |}, db') ∧
         size (requested_artists r') + 1 = size (requested_artists r) ∧
         size (artists r') = size (artists r) + 1).
Proof.
  intros db Hclaim.
  destruct (Hclaim Song 1%Z (set_requested_artists {[1%Z]} old_song) 1%Z
              (request POST (Some 1%Z) []))
    as (r' & db' & Heq & _ & Hsize);
    [reflexivity|by vm_compute|reflexivity|reflexivity|].
  rewrite (confirm_current_user_as_artist_eq Song db 1
             (set_requested_artists {[1%Z]} old_song)) in Heq
    by reflexivity.
  injection Heq as <- _. by vm_compute in Hsize.
Qed.

Lemma requested_candidate_is_removed_by_an_artist_witness :
  manage_requested_artists Song
      (request DELETE (Some 2%Z) [("artist_id", VInt 2)]) 1 fixtures_requested =
    ({| status := HTTP_403_FORBIDDEN;
        body := Detail "You do not have permission to perform this action." |},
     fixtures_requested) ∧
  ∃ r' db',
    manage_requested_artists Song
        (request DELETE (Some 1%Z) [("artist_id", VInt 2)]) 1 fixtures_requested =
      ({| status := HTTP_200_OK; body := ReleaseData Song 1 r' |}, db') ∧
    2%Z ∉ requested_artists r'.
Proof.
  destruct (requested_candidate_is_removed_by_an_artist Song
              fixtures_requested 1 (set_requested_artists {[2%Z]} old_song) 2)
    as [Hrefused Hremoved].
  - reflexivity.
  - by vm_compute.
  - intros Hin. by vm_compute in Hin.
  - split; [by apply Hrefused|].
    destruct (Hremoved (request DELETE (Some 1%Z) [("artist_id", VInt 2)])
                1%Z (VInt 2) old_user_2)
      as (r' & db' & Heq & _ & _ & Hgone & _);
      [reflexivity|reflexivity|by vm_compute|reflexivity..|].
    by exists r', db'.
Defined.

(** C4 as stated fails: the requested candidate is no artist, and the
    permission of the route lets only artists through.  The second user,
    requested on the first song, sends the DELETE with its own key and is
    refused; the request stands. *)
Lemma requested_candidate_cannot_withdraw :
  ¬ (∀ (k : ReleaseKind) (db : DB) (pk : Z) (r : Release) (C : Z)
       (req : Request),
       releases k db !! pk = Some r →
       C ∈ requested_artists r →
       C ∉ artists r →
       method req = DELETE →
       user req = Some C →
       data req !! "artist_id" = Some (VInt C) →
       ∃ r' db',
         manage_requested_artists k req pk db =
           ({| status := HTTP_200_OK; body := ReleaseData k pk r' |}, db') ∧
         releases k db' !! pk = Some r' ∧
         C ∉ requested_artists r').
Proof.
  intros Hclaim.
  destruct (Hclaim Song fixtures_requested 1%Z
              (set_requested_artists {[2%Z]} old_song) 2%Z
              (request DELETE (Some 2%Z) [("artist_id", VInt 2)]))
    as (r' & db' & Heq & _).
  - reflexivity.
  - by vm_compute.
  - intros Hin. by vm_compute in Hin.
  - reflexivity.
  - reflexivity.
  - reflexivity.
  - vm_compute in Heq. discriminate Heq.
Qed.

Lemma playlist_owner_is_kept_witness :
  let req := request PATCH (Some 1%Z)
               [("owner", VInt 2); ("title", VStr "New Playlist")] in
  ∃ p' db',
    playlists_detail req 1 fixtures =
      ({| status := HTTP_200_OK; body := PlaylistData 1 p' |}, db') ∧
    playlists db' !! 1%Z = Some p' ∧
    owner p' = 1%Z ∧ pl_title p' = "New Playlist".
Proof.
  intros req.
  destruct (playlist_owner_is_kept fixtures req 1) as (_ & Hupdate & _);
    [reflexivity|].
  destruct (Hupdate 1%Z old_playlist)
    as (resp & db' & p' & Heq & Hrow & Howner & Hvalid & _);
    [reflexivity|reflexivity|by right|].
  destruct (Hvalid (Some "New Playlist")) as (-> & Htitle & _); [reflexivity|].
  by exists p', db'.
Defined.

(** C3 as stated fails for an update that does not pass validation: a PUT
    by the owner that names another owner and no title is answered 400, not
    200. *)
Lemma update_without_title_is_rejected :
  ¬ (∀ (db : DB) (pk : Z) (p : Playlist) (req : Request) (o : Value),
       playlists db !! pk = Some p →
       user req = Some (owner p) →
       (method req = PUT ∨ method req = PATCH) →
       data req !! "owner" = Some o →
       ∃ p' db',
         playlists_detail req pk db =
           ({| status := HTTP_200_OK; body := PlaylistData pk p' |}, db') ∧
         owner p' = owner p).
Proof.
  intros Hclaim.
  destruct (Hclaim fixtures 1%Z old_playlist
              (request PUT (Some 1%Z) [("owner", VInt 2)]) (VInt 2))
    as (p' & db' & Heq & _); [reflexivity|reflexivity|by left|reflexivity|].
  rewrite (playlists_detail_update_eq fixtures 1 old_playlist) in Heq
    by (reflexivity || by left).
  discriminate Heq.
Qed.

Lemma list_routes_order_and_search_witness :
  ∃ rows,
    users_list ["old"; "us"] (request GET None []) fixtures =
      ({| status := HTTP_200_OK; body := UserResults rows |}, fixtures) ∧
    StronglySorted (asc String.le username) rows ∧
    (1%Z, old_user) ∈ rows.
Proof.
  destruct (list_routes_order_and_search fixtures ["old"; "us"]
              (request GET None []))
    as ((rows & Heq & Hsorted & _ & Hin) & _); [reflexivity|].
  exists rows. repeat split; [exact Heq|exact Hsorted|].
  apply Hin. split; [reflexivity|].
  repeat constructor.
Defined.

End Examples.

(** * Further properties of the handlers *)

(** ** Whatever the imported classes and helpers do *)

Section HandlersFurther.
Context `{!Permissions, !Serializers, !PlaylistSerializerClass, !Helpers,
          !Builtins}.

(** X1: a POST on the list route of the users creates nothing.  When the
    permission class lets the request through the answer is 405 with the
    detail "Use register.", whatever the body; in every case the tables are
    as before. *)
Theorem users_list_post_creates_nothing (terms : list string) (req : Request)
    (db : DB) :
  method req = POST →
  (users_list terms req db).2 = db ∧
  (has_permission IsUserOrReadOnly req = true →
   users_list terms req db =
     ({| status := HTTP_405_METHOD_NOT_ALLOWED; body := Detail "Use register." |},
      db)).
Proof.
  intros Hm. unfold users_list.
  rewrite (dispatch_eq _ IsUserOrReadOnly) by done. rewrite Hm.
  by destruct (has_permission IsUserOrReadOnly req).
Qed.

(** X2: an extra action answers 405 to every verb it does not declare, once
    the permission class has let the request through, and leaves the tables
    as they are.  The object is not looked up: the answer is the same whether
    the key exists or not. *)
Theorem extra_actions_refuse_other_verbs (k : ReleaseKind) (req : Request)
    (pk : Z) (db : DB) :
  let refused :=
    ({| status := HTTP_405_METHOD_NOT_ALLOWED;
        body := Detail ("Method " +:+ quote +:+ method_name (method req)
                          +:+ quote +:+ " not allowed.") |}, db) in
  (method req ≠ POST → method req ≠ DELETE →
   has_permission IsArtistOrReadOnly req = true →
   manage_requested_artists k req pk db = refused) ∧
  (method req ≠ POST →
   has_permission IsRequestedArtist req = true →
   confirm_current_user_as_artist k req pk db = refused) ∧
  (method req ≠ DELETE →
   has_permission IsArtistOrReadOnly req = true →
   remove_current_user_as_artist k req pk db = refused) ∧
  (method req ≠ POST → method req ≠ DELETE →
   has_permission IsPlaylistOwner req = true →
   manage_songs req pk db = refused).
Proof.
  intros refused. unfold refused. repeat apply conj.
  - intros Hp Hd Hperm. unfold manage_requested_artists.
    rewrite (dispatch_eq _ IsArtistOrReadOnly) by (by destruct k).
    rewrite Hperm. by destruct (method req).
  - intros Hp Hperm. unfold confirm_current_user_as_artist.
    rewrite (dispatch_eq _ IsRequestedArtist) by (by destruct k).
    rewrite Hperm. by destruct (method req).
  - intros Hd Hperm. unfold remove_current_user_as_artist.
    rewrite (dispatch_eq _ IsArtistOrReadOnly) by (by destruct k).
    rewrite Hperm. by destruct (method req).
  - intros Hp Hd Hperm. unfold manage_songs.
    rewrite (dispatch_eq _ IsPlaylistOwner) by done.
    rewrite Hperm. by destruct (method req).
Qed.

(** X3: the list routes answer 405 to PUT, PATCH and DELETE and the detail
    routes answer 405 to POST, once the permission class has let the request
    through; the tables are as before. *)
Theorem list_and_detail_routes_refuse_other_verbs (k : ReleaseKind)
    (terms : list string) (req : Request) (pk : Z) (db : DB) :
  let refused :=
    ({| status := HTTP_405_METHOD_NOT_ALLOWED;
        body := Detail ("Method " +:+ quote +:+ method_name (method req)
                          +:+ quote +:+ " not allowed.") |}, db) in
  ((method req = PUT ∨ method req = PATCH ∨ method req = DELETE) →
   (has_permission IsUserOrReadOnly req = true →
    users_list terms req db = refused) ∧
   (has_permission IsArtistOrReadOnly req = true →
    releases_list k terms req db = refused) ∧
   (has_permission IsPlaylistOwner req = true →
    playlists_list terms req db = refused)) ∧
  (method req = POST →
   (has_permission IsUserOrReadOnly req = true →
    users_detail req pk db = refused) ∧
   (has_permission IsPlaylistOwner req = true →
    playlists_detail req pk db = refused)).
Proof.
  intros refused. unfold refused. split.
  - intros Hm. repeat apply conj; intros Hperm.
    + unfold users_list. rewrite (dispatch_eq _ IsUserOrReadOnly) by done.
      rewrite Hperm. by destruct Hm as [->|[->| ->]].
    + unfold releases_list.
      rewrite (dispatch_eq _ IsArtistOrReadOnly) by (by destruct k).
      rewrite Hperm. by destruct Hm as [->|[->| ->]].
    + unfold playlists_list. rewrite (dispatch_eq _ IsPlaylistOwner) by done.
      rewrite Hperm. by destruct Hm as [->|[->| ->]].
  - intros Hm. split; intros Hperm.
    + unfold users_detail. rewrite (dispatch_eq _ IsUserOrReadOnly) by done.
      by rewrite Hperm, Hm.
    + unfold playlists_detail. rewrite (dispatch_eq _ IsPlaylistOwner) by done.
      by rewrite Hperm, Hm.
Qed.

Lemma get_object_playlist_none (req : Request) (u pk : Z) (db : DB) :
  user req = Some u →
  (∀ p, playlists db !! pk = Some p → owner p ≠ u) →
  get_object PlaylistViewSet req pk db = (inl Http404, db).
Proof.
  intros Hu Hnone. rewrite (get_object_playlist req u) by done.
  rewrite map_lookup_filter_None_2; [done|].
  right. intros p Hp. by apply Hnone.
Qed.

Lemma confirm_route_eq (k : ReleaseKind) (req : Request) (pk : Z) (db : DB) :
  method req = POST →
  has_permission IsRequestedArtist req = true →
  confirm_current_user_as_artist k req pk db =
    match releases k db !! pk with
    | None => (handle_exception Http404, db)
    | Some r =>
        if has_object_permission IsRequestedArtist req pk r
        then run (confirm_user_as_artist k (pk, r) (user req)) db
        else (handle_exception (denied req), db)
    end.
Proof.
  intros Hm Hperm. unfold confirm_current_user_as_artist.
  rewrite (dispatch_eq _ IsRequestedArtist) by (by destruct k).
  rewrite Hperm, Hm. cbn [from_option id].
  unfold run, ReleaseMixin_confirm_current_user_as_artist.
  unfold mbind at 1, View_bind at 1. rewrite get_object_release.
  destruct (releases k db !! pk) as [r|]; [|done].
  by destruct (has_object_permission IsRequestedArtist req pk r).
Qed.

Lemma remove_route_eq (k : ReleaseKind) (req : Request) (pk : Z) (db : DB) :
  method req = DELETE →
  has_permission IsArtistOrReadOnly req = true →
  remove_current_user_as_artist k req pk db =
    match releases k db !! pk with
    | None => (handle_exception Http404, db)
    | Some r =>
        if has_object_permission IsArtistOrReadOnly req pk r
        then run (remove_user_as_artist k (pk, r) (user req)) db
        else (handle_exception (denied req), db)
    end.
Proof.
  intros Hm Hperm. unfold remove_current_user_as_artist.
  rewrite (dispatch_eq _ IsArtistOrReadOnly) by (by destruct k).
  rewrite Hperm, Hm. cbn [from_option id].
  unfold run, ReleaseMixin_remove_current_user_as_artist.
  unfold mbind at 1, View_bind at 1. rewrite get_object_release_default.
  destruct (releases k db !! pk) as [r|]; [|done].
  by destruct (has_object_permission IsArtistOrReadOnly req pk r).
Qed.

Lemma manage_requested_artists_missing (k : ReleaseKind) (req : Request)
    (pk : Z) (db : DB) :
  (method req = POST ∨ method req = DELETE) →
  releases k db !! pk = None →
  has_permission IsArtistOrReadOnly req = true →
  manage_requested_artists k req pk db = (handle_exception Http404, db).
Proof.
  intros Hm Hnone Hperm. unfold manage_requested_artists.
  rewrite (dispatch_eq _ IsArtistOrReadOnly) by (by destruct k).
  rewrite Hperm.
  assert (∀ h : View Response,
    default (raise (MethodNotAllowed (method req)))
      match method req with POST | DELETE => Some h | _ => None end = h)
    as -> by (intros h; by destruct Hm as [-> | ->]).
  unfold run, ReleaseMixin_manage_requested_artists.
  unfold mbind at 1, View_bind at 1.
  by rewrite get_object_release_default, Hnone.
Qed.

Lemma manage_songs_hidden (req : Request) (u pk : Z) (db : DB) :
  (method req = POST ∨ method req = DELETE) →
  user req = Some u →
  (∀ p, playlists db !! pk = Some p → owner p ≠ u) →
  has_permission IsPlaylistOwner req = true →
  manage_songs req pk db = (handle_exception Http404, db).
Proof.
  intros Hm Hu Hnone Hperm. unfold manage_songs.
  rewrite (dispatch_eq _ IsPlaylistOwner) by done. rewrite Hperm.
  assert (∀ h : View Response,
    default (raise (MethodNotAllowed (method req)))
      match method req with POST | DELETE => Some h | _ => None end = h)
    as -> by (intros h; by destruct Hm as [-> | ->]).
  unfold run, PlaylistViewSet_manage_songs.
  unfold mbind at 1, View_bind at 1.
  by rewrite (get_object_playlist_none req u).
Qed.

(** X4: an extra action on a release that does not exist is answered 404
    with the detail "Not found.", whatever the body, and changes nothing; no
    helper is run. *)
Theorem actions_on_a_missing_release (k : ReleaseKind) (req : Request)
    (pk : Z) (db : DB) :
  releases k db !! pk = None →
  let not_found :=
    ({| status := HTTP_404_NOT_FOUND; body := Detail "Not found." |}, db) in
  ((method req = POST ∨ method req = DELETE) →
   has_permission IsArtistOrReadOnly req = true →
   manage_requested_artists k req pk db = not_found) ∧
  (method req = POST →
   has_permission IsRequestedArtist req = true →
   confirm_current_user_as_artist k req pk db = not_found) ∧
  (method req = DELETE →
   has_permission IsArtistOrReadOnly req = true →
   remove_current_user_as_artist k req pk db = not_found).
Proof.
  intros Hnone not_found. repeat apply conj.
  - intros Hm Hperm. by apply manage_requested_artists_missing.
  - intros Hm Hperm. by rewrite confirm_route_eq, Hnone.
  - intros Hm Hperm. by rewrite remove_route_eq, Hnone.
Qed.

(** X5: [manage_songs] on a key under which the caller has no playlist (no
    playlist at all, or the playlist of another user) is answered 404 with
    the detail "Not found.", whatever the body and whatever the object
    permission would say; nothing changes and no helper is run. *)
Theorem manage_songs_on_a_foreign_playlist (req : Request) (u pk : Z)
    (db : DB) :
  (method req = POST ∨ method req = DELETE) →
  user req = Some u →
  (∀ p, playlists db !! pk = Some p → owner p ≠ u) →
  has_permission IsPlaylistOwner req = true →
  manage_songs req pk db =
    ({| status := HTTP_404_NOT_FOUND; body := Detail "Not found." |}, db).
Proof. intros. by apply manage_songs_hidden with u. Qed.

(** X6: when the object permission refuses the caller, an extra action of a
    release is answered 403 (401 for the anonymous user) and changes
    nothing, whatever the body: the body is not read and no helper is
    run. *)
Theorem actions_refused_by_object_permission (k : ReleaseKind) (req : Request)
    (pk : Z) (r : Release) (db : DB) :
  releases k db !! pk = Some r →
  let refused :=
    ({| status := if is_authenticated req then HTTP_403_FORBIDDEN
                  else HTTP_401_UNAUTHORIZED;
        body := Detail (if is_authenticated req
                        then "You do not have permission to perform this action."
                        else "Authentication credentials were not provided.") |},
     db) in
  ((method req = POST ∨ method req = DELETE) →
   has_permission IsArtistOrReadOnly req = true →
   has_object_permission IsArtistOrReadOnly req pk r = false →
   manage_requested_artists k req pk db = refused) ∧
  (method req = POST →
   has_permission IsRequestedArtist req = true →
   has_object_permission IsRequestedArtist req pk r = false →
   confirm_current_user_as_artist k req pk db = refused) ∧
  (method req = DELETE →
   has_permission IsArtistOrReadOnly req = true →
   has_object_permission IsArtistOrReadOnly req pk r = false →
   remove_current_user_as_artist k req pk db = refused).
Proof.
  intros Hr refused.
  assert ((handle_exception (denied req), db) = refused) as <-.
  { unfold refused, denied. by destruct (is_authenticated req). }
  repeat apply conj.
  - intros Hm Hperm Hobj.
    by rewrite (manage_requested_artists_eq k req pk r), Hobj.
  - intros Hm Hperm Hobj. by rewrite confirm_route_eq, Hr, Hobj.
  - intros Hm Hperm Hobj. by rewrite remove_route_eq, Hr, Hobj.
Qed.

Lemma get_object_or_404_invalid {A} (table : DB → gmap Z A) (v : Value)
    (k : Z * A → View Response) (db : DB) :
  to_python v = None →
  run (obj ← get_object_or_404 table v; k obj) db =
    (handle_exception ServerError, db).
Proof. intros Hv. unfold run, get_object_or_404. by rewrite Hv. Qed.

(** X7: an [artist_id] (or [song_id]) that is present but is no key, a list
    or a string that [int] refuses, makes the lookup raise: the answer is
    500, not 404, and nothing changes. *)
Theorem manage_actions_with_a_malformed_id (req : Request) (pk : Z) (db : DB)
    (v : Value) :
  (method req = POST ∨ method req = DELETE) →
  to_python v = None →
  (∀ k entity,
     releases k db !! pk = Some entity →
     has_permission IsArtistOrReadOnly req = true →
     has_object_permission IsArtistOrReadOnly req pk entity = true →
     data_get req "artist_id" = Some v →
     manage_requested_artists k req pk db =
       ({| status := HTTP_500_INTERNAL_SERVER_ERROR; body := NoBody |}, db)) ∧
  (∀ playlist,
     playlists db !! pk = Some playlist →
     user req = Some (owner playlist) →
     has_permission IsPlaylistOwner req = true →
     has_object_permission IsPlaylistOwner req pk playlist = true →
     data_get req "song_id" = Some v →
     manage_songs req pk db =
       ({| status := HTTP_500_INTERNAL_SERVER_ERROR; body := NoBody |}, db)).
Proof.
  intros Hm Hv. split.
  - intros k entity Hent Hperm Hobj Hdata.
    rewrite (manage_requested_artists_eq k req pk entity) by done.
    rewrite Hobj, Hdata. by apply get_object_or_404_invalid.
  - intros playlist Hpl Hu Hperm Hobj Hdata.
    rewrite (manage_songs_eq req pk playlist) by done.
    rewrite Hdata. by apply get_object_or_404_invalid.
Qed.

(** X8: with a release the caller may act on and an [artist_id] that names a
    user, [manage_requested_artists] is the helper of the verb and nothing
    else: a POST answers what [add_artist_to_requested] answers, a DELETE
    what [remove_artist_from_requested] answers, each given the release, the
    user named and the caller.  Likewise [manage_songs] with the two playlist
    helpers. *)
Theorem manage_actions_run_the_helper_of_the_verb (req : Request) (pk : Z)
    (db : DB) (v : Value) (n : Z) :
  to_python v = Some n →
  (∀ k entity artist,
     releases k db !! pk = Some entity →
     has_permission IsArtistOrReadOnly req = true →
     has_object_permission IsArtistOrReadOnly req pk entity = true →
     data_get req "artist_id" = Some v →
     users db !! n = Some artist →
     (method req = POST →
      manage_requested_artists k req pk db =
        run (add_artist_to_requested k (pk, entity) (n, artist) (user req)) db) ∧
     (method req = DELETE →
      manage_requested_artists k req pk db =
        run (remove_artist_from_requested k (pk, entity) (n, artist) (user req))
          db)) ∧
  (∀ playlist song,
     playlists db !! pk = Some playlist →
     user req = Some (owner playlist) →
     has_permission IsPlaylistOwner req = true →
     has_object_permission IsPlaylistOwner req pk playlist = true →
     data_get req "song_id" = Some v →
     songs db !! n = Some song →
     (method req = POST →
      manage_songs req pk db =
        run (add_song_to_playlist (pk, playlist) (n, song)) db) ∧
     (method req = DELETE →
      manage_songs req pk db =
        run (remove_song_from_playlist (pk, playlist) (n, song)) db)).
Proof.
  intros Hv. split.
  - intros k entity artist Hent Hperm Hobj Hdata Hart. split; intros Hm.
    + rewrite (manage_requested_artists_eq k req pk entity) by auto.
      rewrite Hobj, Hdata.
      rewrite (get_object_or_404_found users v n artist) by done.
      by rewrite decide_True.
    + rewrite (manage_requested_artists_eq k req pk entity) by auto.
      rewrite Hobj, Hdata.
      rewrite (get_object_or_404_found users v n artist) by done.
      rewrite decide_False; [done|]. by rewrite Hm.
  - intros playlist song Hpl Hu Hperm Hobj Hdata Hsong. split; intros Hm.
    + rewrite (manage_songs_eq req pk playlist) by auto.
      rewrite Hdata.
      rewrite (get_object_or_404_found songs v n song) by done.
      by rewrite decide_True.
    + rewrite (manage_songs_eq req pk playlist) by auto.
      rewrite Hdata.
      rewrite (get_object_or_404_found songs v n song) by done.
      rewrite decide_False; [done|]. by rewrite Hm.
Qed.

Lemma releases_list_create_eq (k : ReleaseKind) (terms : list string)
    (req : Request) (U : Z) (db : DB) :
  method req = POST →
  user req = Some U →
  has_permission IsArtistOrReadOnly req = true →
  releases_list k terms req db =
    match run_validation (serializer_class (ReleaseViewSet k)) db req None false with
    | inl errs => ({| status := HTTP_400_BAD_REQUEST; body := Errors errs |}, db)
    | inr v =>
        match create (serializer_class (ReleaseViewSet k)) req v with
        | None => (handle_exception ServerError, db)
        | Some obj =>
            let pk := next_pk (releases k db) in
            let r := set_artists (artists obj ∪ {[U]}) obj in
            ({| status := HTTP_201_CREATED; body := ReleaseData k pk r |},
             set_releases k (<[pk := r]> (releases k db)) db)
        end
    end.
Proof.
  intros Hm Hu Hperm. unfold releases_list.
  rewrite (dispatch_eq _ IsArtistOrReadOnly) by (by destruct k).
  rewrite Hperm, Hm. cbn [from_option id].
  unfold run, generic_create, is_valid, ReleaseMixin_perform_create, save_new.
  rewrite Hu. view_simpl.
  destruct (run_validation (serializer_class (ReleaseViewSet k)) db req None false)
    as [errs|v]; [done|].
  destruct (create (serializer_class (ReleaseViewSet k)) req v) as [obj|];
    [|done].
  destruct k; cbn; rewrite lookup_alter_eq, lookup_insert_eq; cbn;
    by rewrite alter_insert_eq.
Qed.

(** X10: a creation whose data the serializer rejects stores nothing: the
    answer is 400 with the errors of the serializer and the tables are as
    before.  This holds of songs and albums and of playlists, for every
    serializer. *)
Theorem rejected_creation_stores_nothing (terms : list string) (req : Request)
    (db : DB) (errs : list (string * string)) :
  method req = POST →
  (∀ k,
     has_permission IsArtistOrReadOnly req = true →
     run_validation (serializer_class (ReleaseViewSet k)) db req None false
       = inl errs →
     releases_list k terms req db =
       ({| status := HTTP_400_BAD_REQUEST; body := Errors errs |}, db)) ∧
  (has_permission IsPlaylistOwner req = true →
   run_validation PlaylistSerializer db req None false = inl errs →
   playlists_list terms req db =
     ({| status := HTTP_400_BAD_REQUEST; body := Errors errs |}, db)).
Proof.
  intros Hm. split.
  - intros k Hperm Hv. unfold releases_list.
    rewrite (dispatch_eq _ IsArtistOrReadOnly) by (by destruct k).
    rewrite Hperm, Hm. cbn [from_option id].
    unfold run, generic_create, is_valid. view_simpl. by rewrite Hv.
  - intros Hperm Hv. unfold playlists_list.
    rewrite (dispatch_eq _ IsPlaylistOwner) by done.
    rewrite Hperm, Hm. cbn [from_option id].
    unfold run, generic_create, is_valid. view_simpl. by rewrite Hv.
Qed.

(** X11: a creation of a song or an album that the serializer accepts adds
    exactly one row, under a key that was free, and touches nothing else:
    the table is one row larger, its other rows, the table of the other
    kind, the users and the playlists are as before, and the new row is the
    row the serializer made but for the creator added to its artists. *)
Theorem accepted_creation_adds_one_release (k : ReleaseKind)
    (terms : list string) (req : Request) (U : Z) (db : DB)
    (v : ReleaseFields) (obj : Release) :
  method req = POST →
  user req = Some U →
  has_permission IsArtistOrReadOnly req = true →
  run_validation (serializer_class (ReleaseViewSet k)) db req None false = inr v →
  create (serializer_class (ReleaseViewSet k)) req v = Some obj →
  ∃ pk r db',
    releases_list k terms req db =
      ({| status := HTTP_201_CREATED; body := ReleaseData k pk r |}, db') ∧
    releases k db !! pk = None ∧
    releases k db' = <[pk := r]> (releases k db) ∧
    size (releases k db') = S (size (releases k db)) ∧
    r = set_artists (artists obj ∪ {[U]}) obj ∧
    (∀ k', k' ≠ k → releases k' db' = releases k' db) ∧
    users db' = users db ∧ playlists db' = playlists db.
Proof.
  intros Hm Hu Hperm Hv Hc.
  rewrite (releases_list_create_eq k terms req U db) by done.
  rewrite Hv, Hc. cbn zeta.
  eexists _, _, _. split; [reflexivity|].
  pose proof (next_pk_fresh (releases k db)) as Hfresh.
  split; [done|]. split; [by destruct k|].
  split; [destruct k; cbn in *; by apply map_size_insert_None|].
  split; [done|].
  split; [|by destruct k].
  intros k' Hk'. by destruct k, k'.
Qed.


Lemma users_list_get_eq (terms : list string) (req : Request) (db : DB) :
  method req = GET →
  has_permission IsUserOrReadOnly req = true →
  users_list terms req db =
    ({| status := HTTP_200_OK;
        body := UserResults
          (searched (λ _ u, [[Some (username u); country u]]) terms db
             (order_by (asc String.le username) (objects_all (users db)))) |},
     db).
Proof.
  intros Hm Hperm. unfold users_list.
  rewrite (dispatch_eq _ IsUserOrReadOnly) by done.
  rewrite Hperm, Hm. cbn [from_option id]. unfold run.
  by erewrite generic_list_eq.
Qed.

Lemma releases_list_get_eq (k : ReleaseKind) (terms : list string)
    (req : Request) (db : DB) :
  method req = GET →
  has_permission IsArtistOrReadOnly req = true →
  releases_list k terms req db =
    ({| status := HTTP_200_OK;
        body := ReleaseResults k
          (searched
             (λ db r, (λ a, [Some (title r); a]) <$> artists__username db r)
             terms db
             (order_by (desc null_first_le release_date)
                (objects_all (releases k db)))) |},
     db).
Proof.
  intros Hm Hperm. unfold releases_list.
  rewrite (dispatch_eq _ IsArtistOrReadOnly) by (by destruct k).
  rewrite Hperm, Hm. cbn [from_option id]. unfold run.
  destruct k; by erewrite generic_list_eq.
Qed.

Lemma playlists_list_get_eq (terms : list string) (req : Request) (U : Z)
    (db : DB) :
  method req = GET →
  user req = Some U →
  has_permission IsPlaylistOwner req = true →
  playlists_list terms req db =
    ({| status := HTTP_200_OK;
        body := PlaylistResults
          (searched (λ _ p, [[Some (pl_title p)]]) terms db
             (order_by (desc Z.le created_at)
                (objects_filter (λ p, owner p = U) (playlists db)))) |},
     db).
Proof.
  intros Hm Hu Hperm. unfold playlists_list.
  rewrite (dispatch_eq _ IsPlaylistOwner) by done.
  rewrite Hperm, Hm. cbn [from_option id]. unfold run.
  erewrite generic_list_eq; [reflexivity| |reflexivity].
  cbn. unfold PlaylistViewSet_get_queryset. by rewrite Hu.
Qed.

Lemma length_order_by {A} (R : relation (Z * A)) `{!RelDecision R}
    (qs : QuerySet A) :
  length (order_by R qs) = length qs.
Proof. unfold order_by. by rewrite merge_sort_Permutation. Qed.

(** X13: without search terms a list route lists every record: a GET
    answers 200 with as many rows as the table of users, of songs or of
    albums has, and a playlist row for each playlist of the caller, one for
    each and no other. *)
Theorem lists_without_terms_are_complete (req : Request) (db : DB) :
  method req = GET →
  (has_permission IsUserOrReadOnly req = true →
   ∃ rows,
     users_list [] req db =
       ({| status := HTTP_200_OK; body := UserResults rows |}, db) ∧
     length rows = size (users db)) ∧
  (∀ k, has_permission IsArtistOrReadOnly req = true →
   ∃ rows,
     releases_list k [] req db =
       ({| status := HTTP_200_OK; body := ReleaseResults k rows |}, db) ∧
     length rows = size (releases k db)) ∧
  (∀ U, user req = Some U → has_permission IsPlaylistOwner req = true →
   ∃ rows,
     playlists_list [] req db =
       ({| status := HTTP_200_OK; body := PlaylistResults rows |}, db) ∧
     length rows = size (filter (λ kv, owner kv.2 = U) (playlists db)) ∧
     ∀ pk p, (pk, p) ∈ rows ↔ playlists db !! pk = Some p ∧ owner p = U).
Proof.
  intros Hm. repeat apply conj.
  - intros Hperm. eexists. split; [by apply users_list_get_eq|].
    unfold searched, objects_all.
    by rewrite length_order_by, length_map_to_list.
  - intros k Hperm. eexists. split; [by apply releases_list_get_eq|].
    unfold searched, objects_all.
    by rewrite length_order_by, length_map_to_list.
  - intros U HU Hperm. eexists. split; [by apply playlists_list_get_eq|].
    unfold searched. split.
    + unfold objects_filter. by rewrite length_order_by, length_map_to_list.
    + intros pk p. by rewrite elem_of_order_by, elem_of_objects_filter.
Qed.

Lemma sublist_filter_impl {A} (P Q : A → Prop) `{!∀ x, Decision (P x)}
    `{!∀ x, Decision (Q x)} (l : list A) :
  (∀ x, P x → Q x) → filter P l `sublist_of` filter Q l.
Proof.
  intros Himpl. induction l as [|x l IH]; [done|].
  rewrite !filter_cons.
  destruct (decide (P x)) as [HP|HP].
  - rewrite decide_True by auto. by apply sublist_skip.
  - destruct (decide (Q x)); [by apply sublist_cons|done].
Qed.

Lemma search_row_app (terms terms' : list string)
    (cols : list (option string)) :
  search_row (terms ++ terms')%list cols =
    search_row terms cols && search_row terms' cols.
Proof. unfold search_row. apply forallb_app. Qed.

Lemma searched_narrows {A} (sf : DB → A → list (list (option string)))
    (terms : list string) (t : string) (db : DB) (qs : QuerySet A) :
  searched sf (terms ++ [t]) db qs `sublist_of` searched sf terms db qs.
Proof.
  unfold searched. destruct terms as [|t0 terms]; [apply sublist_filter|].
  cbn [app]. apply sublist_filter_impl. intros r.
  change (t0 :: (terms ++ [t])%list) with ((t0 :: terms) ++ [t])%list.
  rewrite !Is_true_true, !existsb_exists.
  intros (cols & Hin & Hs). exists cols. split; [done|].
  rewrite search_row_app in Hs. by apply andb_true_iff in Hs as [Hs _].
Qed.

(** X14: searching only takes rows away and keeps the order of the list:
    on every list route the rows listed for the terms with one more term are
    a sublist of the rows listed for the terms alone. *)
Theorem a_further_term_narrows_the_list (terms : list string) (t : string)
    (req : Request) (db : DB) :
  method req = GET →
  (has_permission IsUserOrReadOnly req = true →
   ∃ rows rows',
     users_list terms req db =
       ({| status := HTTP_200_OK; body := UserResults rows |}, db) ∧
     users_list (terms ++ [t]) req db =
       ({| status := HTTP_200_OK; body := UserResults rows' |}, db) ∧
     rows' `sublist_of` rows) ∧
  (∀ k, has_permission IsArtistOrReadOnly req = true →
   ∃ rows rows',
     releases_list k terms req db =
       ({| status := HTTP_200_OK; body := ReleaseResults k rows |}, db) ∧
     releases_list k (terms ++ [t]) req db =
       ({| status := HTTP_200_OK; body := ReleaseResults k rows' |}, db) ∧
     rows' `sublist_of` rows) ∧
  (∀ U, user req = Some U → has_permission IsPlaylistOwner req = true →
   ∃ rows rows',
     playlists_list terms req db =
       ({| status := HTTP_200_OK; body := PlaylistResults rows |}, db) ∧
     playlists_list (terms ++ [t]) req db =
       ({| status := HTTP_200_OK; body := PlaylistResults rows' |}, db) ∧
     rows' `sublist_of` rows).
Proof.
  intros Hm. repeat apply conj.
  - intros Hperm. eexists _, _.
    split; [by apply users_list_get_eq|].
    split; [by apply users_list_get_eq|]. apply searched_narrows.
  - intros k Hperm. eexists _, _.
    split; [by apply releases_list_get_eq|].
    split; [by apply releases_list_get_eq|]. apply searched_narrows.
  - intros U HU Hperm. eexists _, _.
    split; [by apply playlists_list_get_eq|].
    split; [by apply playlists_list_get_eq|]. apply searched_narrows.
Qed.

Lemma users_detail_delete_generic (req : Request) (U : Z) (db : DB) :
  method req = DELETE →
  has_permission IsUserOrReadOnly req = true →
  users_detail req U db =
    match users db !! U with
    | None => (handle_exception Http404, db)
    | Some u =>
        if has_object_permission IsUserOrReadOnly req U u
        then ({| status := HTTP_204_NO_CONTENT; body := NoBody |},
              set_users (<[U := set_is_active false u]> (users db)) db)
        else (handle_exception (denied req), db)
    end.
Proof.
  intros Hm Hperm. unfold users_detail.
  rewrite (dispatch_eq _ IsUserOrReadOnly) by done.
  rewrite Hperm, Hm. cbn [from_option id].
  unfold run, UserViewSet_destroy. unfold mbind at 1, View_bind at 1.
  rewrite get_object_user. destruct (users db !! U) as [u|]; [|done].
  by destruct (has_object_permission IsUserOrReadOnly req U u).
Qed.

Lemma users_detail_get_generic (req : Request) (U : Z) (db : DB) :
  method req = GET →
  has_permission IsUserOrReadOnly req = true →
  users_detail req U db =
    match users db !! U with
    | None => (handle_exception Http404, db)
    | Some u =>
        if has_object_permission IsUserOrReadOnly req U u
        then ({| status := HTTP_200_OK; body := UserData U u |}, db)
        else (handle_exception (denied req), db)
    end.
Proof.
  intros Hm Hperm. unfold users_detail.
  rewrite (dispatch_eq _ IsUserOrReadOnly) by done.
  rewrite Hperm, Hm. cbn [from_option id].
  unfold run, retrieve. unfold mbind at 1, View_bind at 1.
  rewrite get_object_user. destruct (users db !! U) as [u|]; [|done].
  by destruct (has_object_permission IsUserOrReadOnly req U u).
Qed.

(** X15: a DELETE on the detail route of a user that fails changes nothing:
    it is answered 404 with the detail "Not found." when there is no such
    user, and 403 (401 for the anonymous user) when the object permission
    refuses the caller; in both cases every active flag is as it was. *)
Theorem user_delete_that_fails_changes_nothing (req : Request) (U : Z)
    (db : DB) :
  method req = DELETE →
  has_permission IsUserOrReadOnly req = true →
  (users db !! U = None →
   users_detail req U db =
     ({| status := HTTP_404_NOT_FOUND; body := Detail "Not found." |}, db)) ∧
  (∀ u, users db !! U = Some u →
        has_object_permission IsUserOrReadOnly req U u = false →
   users_detail req U db =
     ({| status := if is_authenticated req then HTTP_403_FORBIDDEN
                   else HTTP_401_UNAUTHORIZED;
         body := Detail (if is_authenticated req
                         then "You do not have permission to perform this action."
                         else "Authentication credentials were not provided.") |},
      db)).
Proof.
  intros Hm Hperm. rewrite users_detail_delete_generic by done. split.
  - by intros ->.
  - intros u -> ->. unfold denied. by destruct (is_authenticated req).
Qed.

(** X16: a user that was deleted is still served: the query set of the
    users does not look at the active flag.  After the DELETE a GET on the
    detail route of the user answers 200 with the row, now inactive, and the
    list of the users still holds it. *)
Theorem deleted_user_is_still_served (db : DB) (U : Z) (u : User)
    (del get : Request) :
  users db !! U = Some u →
  method del = DELETE →
  has_permission IsUserOrReadOnly del = true →
  has_object_permission IsUserOrReadOnly del U u = true →
  method get = GET →
  has_permission IsUserOrReadOnly get = true →
  has_object_permission IsUserOrReadOnly get U (set_is_active false u) = true →
  ∃ db' rows,
    users_detail del U db =
      ({| status := HTTP_204_NO_CONTENT; body := NoBody |}, db') ∧
    users_detail get U db' =
      ({| status := HTTP_200_OK; body := UserData U (set_is_active false u) |},
       db') ∧
    users_list [] get db' =
      ({| status := HTTP_200_OK; body := UserResults rows |}, db') ∧
    (U, set_is_active false u) ∈ rows ∧
    length rows = size (users db).
Proof.
  intros Hu Hmd Hpd Hod Hmg Hpg Hog.
  eexists _, _. split.
  { rewrite users_detail_delete_generic by done. by rewrite Hu, Hod. }
  split.
  { rewrite users_detail_get_generic by done. cbn.
    by rewrite lookup_insert_eq, Hog. }
  split; [by apply users_list_get_eq|]. unfold searched. cbn. split.
  - apply elem_of_order_by, elem_of_objects_all, lookup_insert_eq.
  - unfold objects_all. rewrite length_order_by, length_map_to_list.
    by eapply map_size_insert_Some.
Qed.

Lemma playlists_detail_owner_eq (req : Request) (pk : Z) (p : Playlist)
    (db : DB) :
  playlists db !! pk = Some p →
  user req = Some (owner p) →
  has_permission IsPlaylistOwner req = true →
  has_object_permission IsPlaylistOwner req pk p = true →
  (method req = GET →
   playlists_detail req pk db =
     ({| status := HTTP_200_OK; body := PlaylistData pk p |}, db)) ∧
  (method req = DELETE →
   playlists_detail req pk db =
     ({| status := HTTP_204_NO_CONTENT; body := NoBody |},
      set_playlists (delete pk (playlists db)) db)).
Proof.
  intros Hp Hu Hperm Hobj.
  pose proof (playlist_visible req pk p db Hu Hp Hobj) as Hget.
  split; intros Hm; unfold playlists_detail;
    rewrite (dispatch_eq _ IsPlaylistOwner) by done;
    rewrite Hperm, Hm; cbn [from_option id];
    unfold run, retrieve, generic_destroy;
    unfold mbind at 1, View_bind at 1; by rewrite Hget.
Qed.

(** X17: a playlist its owner deletes is gone, and only it: the DELETE is
    answered 204, the table of playlists is one row smaller, the other
    playlists and the other tables are as before, and from then on every
    request of the owner to the detail route of the key, and to
    [manage_songs], is answered 404. *)
Theorem deleted_playlist_is_gone (db : DB) (pk : Z) (p : Playlist)
    (del : Request) :
  playlists db !! pk = Some p →
  user del = Some (owner p) →
  method del = DELETE →
  has_permission IsPlaylistOwner del = true →
  has_object_permission IsPlaylistOwner del pk p = true →
  ∃ db',
    playlists_detail del pk db =
      ({| status := HTTP_204_NO_CONTENT; body := NoBody |}, db') ∧
    playlists db' !! pk = None ∧
    S (size (playlists db')) = size (playlists db) ∧
    (∀ pk', pk' ≠ pk → playlists db' !! pk' = playlists db !! pk') ∧
    users db' = users db ∧ songs db' = songs db ∧ albums db' = albums db ∧
    (∀ req, user req = Some (owner p) →
            has_permission IsPlaylistOwner req = true →
       (method req ≠ POST →
        playlists_detail req pk db' =
          ({| status := HTTP_404_NOT_FOUND; body := Detail "Not found." |}, db')) ∧
       ((method req = POST ∨ method req = DELETE) →
        manage_songs req pk db' =
          ({| status := HTTP_404_NOT_FOUND; body := Detail "Not found." |}, db'))).
Proof.
  intros Hp Hu Hm Hperm Hobj.
  destruct (playlists_detail_owner_eq del pk p db Hp Hu Hperm Hobj) as [_ Hdel].
  eexists. split; [by apply Hdel|]. cbn.
  split; [apply lookup_delete_eq|].
  split.
  { rewrite <-(insert_delete_id (playlists db) pk p) at 2 by done.
    by rewrite map_size_insert_None by apply lookup_delete_eq. }
  split; [intros pk' Hne; by apply lookup_delete_ne|].
  do 3 (split; [done|]).
  intros req Hu' Hperm'.
  assert (get_object PlaylistViewSet req pk
            (set_playlists (delete pk (playlists db)) db) =
          (inl Http404, set_playlists (delete pk (playlists db)) db)) as Hget.
  { apply (get_object_playlist_none req (owner p)); [done|].
    intros p' Hp'. cbn in Hp'. by rewrite lookup_delete_eq in Hp'. }
  split.
  - intros Hm'. unfold playlists_detail.
    rewrite (dispatch_eq _ IsPlaylistOwner) by done. rewrite Hperm'.
    destruct (method req); [|done|..]; cbn [from_option id];
      unfold run, retrieve, generic_update, generic_destroy;
      unfold mbind at 1, View_bind at 1; by rewrite Hget.
  - intros Hm'. apply (manage_songs_hidden req (owner p)); [done..| |done].
    intros p' Hp'. cbn in Hp'. by rewrite lookup_delete_eq in Hp'.
Qed.

(** X21: an [artist_id] (or [song_id]) given as null is answered like a
    missing one: 400 with the field keyed to "This field is required.", and
    nothing changes. *)
Theorem null_id_is_answered_as_missing (req : Request) (pk : Z) (db : DB) :
  (method req = POST ∨ method req = DELETE) →
  (∀ k entity,
     releases k db !! pk = Some entity →
     has_permission IsArtistOrReadOnly req = true →
     has_object_permission IsArtistOrReadOnly req pk entity = true →
     data req !! "artist_id" = Some VNull →
     manage_requested_artists k req pk db =
       ({| status := HTTP_400_BAD_REQUEST;
           body := Errors [("artist_id", "This field is required.")] |}, db)) ∧
  (∀ playlist,
     playlists db !! pk = Some playlist →
     user req = Some (owner playlist) →
     has_permission IsPlaylistOwner req = true →
     has_object_permission IsPlaylistOwner req pk playlist = true →
     data req !! "song_id" = Some VNull →
     manage_songs req pk db =
       ({| status := HTTP_400_BAD_REQUEST;
           body := Errors [("song_id", "This field is required.")] |}, db)).
Proof.
  intros Hm. split.
  - intros k entity Hent Hperm Hobj Hnull.
    rewrite (manage_requested_artists_eq k req pk entity) by done.
    rewrite Hobj. unfold data_get. by rewrite Hnull.
  - intros playlist Hpl Hu Hperm Hobj Hnull.
    rewrite (manage_songs_eq req pk playlist) by done.
    unfold data_get. by rewrite Hnull.
Qed.

End HandlersFurther.

(** X9: the confirmation is guarded by [IsRequestedArtist] alone.  The
    permission class of the view set plays no part in it: two sets of
    permission classes with the same [IsRequestedArtist] answer every
    request to [confirm_current_user_as_artist] alike. *)
Theorem confirmation_asks_only_IsRequestedArtist (P1 P2 : Permissions)
    `{!Serializers, !Helpers} (k : ReleaseKind) (req : Request) (pk : Z)
    (db : DB) :
  @IsRequestedArtist P1 = @IsRequestedArtist P2 →
  @confirm_current_user_as_artist P1 _ _ k req pk db =
  @confirm_current_user_as_artist P2 _ _ k req pk db.
Proof.
  intros Heq.
  unfold confirm_current_user_as_artist,
    ReleaseMixin_confirm_current_user_as_artist.
  rewrite Heq. by destruct k.
Qed.

(** ** Registration and login, whatever the serializers, the token library
    and the settings do *)

Section AuthFurther.
Context `{!Serializers, !LoginSerializerClass, !Knox, !Settings}.

(** X18: a registration stores one user or nothing.  When the serializer
    rejects the data the answer is 400 with its errors, and neither a user
    nor a token is stored.  When it accepts, the answer is 201 with the new
    user and a token: the user is stored under a key that was free, the
    table of users is one row larger with its other rows as before, the
    other tables are untouched, and the token is the one the token library
    made for the new key. *)
Theorem registration_stores_one_user_or_nothing (req : Request) (db : DB)
    (tokens : Tokens) :
  method req = POST →
  DEFAULT_PERMISSION_CLASSES (unauthenticated req) = true →
  (∀ errs,
     run_validation UserSerializer db (unauthenticated req) None false
       = inl errs →
     user_register req (db, tokens) =
       (Refused {| status := HTTP_400_BAD_REQUEST; body := Errors errs |},
        (db, tokens))) ∧
  (∀ v u,
     run_validation UserSerializer db (unauthenticated req) None false = inr v →
     create UserSerializer (unauthenticated req) v = Some u →
     ∃ pk db' token tokens',
       user_register req (db, tokens) =
         (UserAndToken HTTP_201_CREATED pk u token, (db', tokens')) ∧
       users db !! pk = None ∧
       users db' = <[pk := u]> (users db) ∧
       size (users db') = S (size (users db)) ∧
       AuthToken_create pk tokens = (token, tokens') ∧
       songs db' = songs db ∧ albums db' = albums db ∧
       playlists db' = playlists db).
Proof.
  intros Hm Hperm. unfold user_register, GenericAPIView_dispatch.
  rewrite Hperm. cbn [method unauthenticated]. rewrite Hm.
  unfold RegistrationAPI_post. cbn [fst snd]. split.
  - by intros errs ->.
  - intros v u -> ->.
    destruct (AuthToken_create (next_pk (users db)) tokens)
      as [token tokens'] eqn:Htoken.
    exists (next_pk (users db)), (set_users (<[next_pk (users db) := u]> (users db)) db),
           token, tokens'.
    pose proof (next_pk_fresh (users db)) as Hfresh.
    repeat apply conj; try done.
    cbn. by apply map_size_insert_None.
Qed.

(** X19: a login writes no table.  Whatever the request, the users, songs,
    albums and playlists are as before.  When the serializer rejects the
    credentials the answer is 400 with its errors and no token is made; when
    it accepts, the answer is 200 with the user the serializer found and the
    token the token library made for that very user. *)
Theorem login_writes_no_table (req : Request) (db : DB) (tokens : Tokens) :
  (user_login req (db, tokens)).2.1 = db ∧
  (method req = POST →
   DEFAULT_PERMISSION_CLASSES (unauthenticated req) = true →
   (∀ errs,
      LoginUserSerializer db (unauthenticated req) = inl errs →
      user_login req (db, tokens) =
        (Refused {| status := HTTP_400_BAD_REQUEST; body := Errors errs |},
         (db, tokens))) ∧
   (∀ pk u,
      LoginUserSerializer db (unauthenticated req) = inr (pk, u) →
      user_login req (db, tokens) =
        (UserAndToken HTTP_200_OK pk u (AuthToken_create pk tokens).1,
         (db, (AuthToken_create pk tokens).2)))).
Proof.
  unfold user_login, GenericAPIView_dispatch, LoginAPI_post. split.
  - destruct (DEFAULT_PERMISSION_CLASSES (unauthenticated req)); [|done].
    destruct (method (unauthenticated req)); try done.
    cbn [fst snd].
    destruct (LoginUserSerializer db (unauthenticated req)) as [errs|user];
      [done|].
    by destruct (AuthToken_create user.1 tokens).
  - intros Hm Hperm. rewrite Hperm. cbn [method unauthenticated]. rewrite Hm.
    cbn [fst snd]. split.
    + by intros errs ->.
    + intros pk u ->. cbn [fst snd].
      by destruct (AuthToken_create pk tokens).
Qed.

(** X20: registration and login take POST alone and read no credentials.
    Every other verb is answered 405 and stores neither a user nor a token;
    and two requests that differ only in the user they come from are
    answered alike. *)
Theorem registration_and_login_take_only_posts (req : Request)
    (st : DB * Tokens) :
  (method req ≠ POST →
   DEFAULT_PERMISSION_CLASSES (unauthenticated req) = true →
   let refused :=
     (Refused {| status := HTTP_405_METHOD_NOT_ALLOWED;
                 body := Detail ("Method " +:+ quote +:+ method_name (method req)
                                   +:+ quote +:+ " not allowed.") |}, st) in
   user_register req st = refused ∧ user_login req st = refused) ∧
  (∀ req', method req' = method req → data req' = data req →
           now req' = now req →
     user_register req' st = user_register req st ∧
     user_login req' st = user_login req st).
Proof.
  split.
  - intros Hm Hperm refused. unfold refused, user_register, user_login,
      GenericAPIView_dispatch.
    rewrite Hperm. cbn [method unauthenticated]. by destruct (method req).
  - intros req' Hm Hd Hn.
    assert (unauthenticated req' = unauthenticated req) as Heq.
    { unfold unauthenticated. by rewrite Hm, Hd, Hn. }
    unfold user_register, user_login, GenericAPIView_dispatch.
    by rewrite Heq.
Qed.

End AuthFurther.

(** ** The further properties on the fixtures *)

Section FurtherExamples.
Local Existing Instances modelled_permissions modelled_helpers
  modelled_playlist_serializer example_serializers decimal.

Lemma users_list_post_creates_nothing_witness :
  users_list [] (request POST (Some 1%Z) [("username", VStr "new_user")])
      fixtures =
    ({| status := HTTP_405_METHOD_NOT_ALLOWED; body := Detail "Use register." |},
     fixtures).
Proof.
  apply (users_list_post_creates_nothing []
           (request POST (Some 1%Z) [("username", VStr "new_user")]) fixtures);
    reflexivity.
Defined.

Lemma extra_actions_refuse_other_verbs_witness :
  status (confirm_current_user_as_artist Song (request GET (Some 1%Z) []) 1
            fixtures).1 = HTTP_405_METHOD_NOT_ALLOWED ∧
  (manage_songs (request PUT (Some 1%Z) []) 1 fixtures).2 = fixtures.
Proof.
  destruct (extra_actions_refuse_other_verbs Song (request GET (Some 1%Z) []) 1
              fixtures) as (_ & Hconfirm & _).
  destruct (extra_actions_refuse_other_verbs Song (request PUT (Some 1%Z) []) 1
              fixtures) as (_ & _ & _ & Hsongs).
  split.
  - rewrite Hconfirm; [reflexivity|discriminate|reflexivity].
  - rewrite Hsongs; [reflexivity|discriminate|discriminate|reflexivity].
Defined.

Lemma list_and_detail_routes_refuse_other_verbs_witness :
  status (releases_list Song [] (request DELETE (Some 1%Z) []) fixtures).1 =
    HTTP_405_METHOD_NOT_ALLOWED ∧
  status (users_detail (request POST (Some 1%Z) []) 1 fixtures).1 =
    HTTP_405_METHOD_NOT_ALLOWED.
Proof.
  destruct (list_and_detail_routes_refuse_other_verbs Song []
              (request DELETE (Some 1%Z) []) 1 fixtures) as [Hlist _].
  destruct (Hlist (or_intror (or_intror eq_refl))) as (_ & Hsongs & _).
  destruct (list_and_detail_routes_refuse_other_verbs Song []
              (request POST (Some 1%Z) []) 1 fixtures) as [_ Hdetail].
  destruct (Hdetail eq_refl) as [Husers _].
  split.
  - rewrite Hsongs; reflexivity.
  - rewrite Husers; reflexivity.
Defined.

Lemma actions_on_a_missing_release_witness :
  remove_current_user_as_artist Album (request DELETE (Some 1%Z) []) 9 fixtures =
    ({| status := HTTP_404_NOT_FOUND; body := Detail "Not found." |}, fixtures).
Proof.
  destruct (actions_on_a_missing_release Album (request DELETE (Some 1%Z) []) 9
              fixtures) as (_ & _ & Hremove); [reflexivity|].
  apply Hremove; reflexivity.
Defined.

Lemma manage_songs_on_a_foreign_playlist_witness :
  manage_songs (request POST (Some 1%Z) [("song_id", VInt 2)]) 2 fixtures =
    ({| status := HTTP_404_NOT_FOUND; body := Detail "Not found." |}, fixtures).
Proof.
  apply (manage_songs_on_a_foreign_playlist
           (request POST (Some 1%Z) [("song_id", VInt 2)]) 1 2 fixtures).
  - left. reflexivity.
  - reflexivity.
  - intros p Hp. vm_compute in Hp. injection Hp as <-. simpl. lia.
  - reflexivity.
Defined.

Lemma actions_refused_by_object_permission_witness :
  remove_current_user_as_artist Song (request DELETE (Some 2%Z) []) 1 fixtures =
    ({| status := HTTP_403_FORBIDDEN;
        body := Detail "You do not have permission to perform this action." |},
     fixtures).
Proof.
  destruct (actions_refused_by_object_permission Song
              (request DELETE (Some 2%Z) []) 1 old_song fixtures)
    as (_ & _ & Hremove); [reflexivity|].
  apply Hremove; reflexivity.
Defined.

Lemma manage_actions_with_a_malformed_id_witness :
  manage_requested_artists Song
      (request POST (Some 1%Z) [("artist_id", VStr "two")]) 1 fixtures =
    ({| status := HTTP_500_INTERNAL_SERVER_ERROR; body := NoBody |}, fixtures).
Proof.
  destruct (manage_actions_with_a_malformed_id
              (request POST (Some 1%Z) [("artist_id", VStr "two")]) 1 fixtures
              (VStr "two")) as [Hartist _]; [by left|reflexivity|].
  apply (Hartist Song old_song); reflexivity.
Defined.

Lemma manage_actions_run_the_helper_of_the_verb_witness :
  let req := request POST (Some 1%Z) [("artist_id", VStr "2")] in
  manage_requested_artists Song req 1 fixtures =
    run (add_artist_to_requested Song (1%Z, old_song) (2%Z, old_user_2)
           (Some 1%Z)) fixtures.
Proof.
  intros req.
  destruct (manage_actions_run_the_helper_of_the_verb req 1 fixtures
              (VStr "2") 2) as [Hartist _]; [reflexivity|].
  destruct (Hartist Song old_song old_user_2) as [Hpost _]; [reflexivity..|].
  apply Hpost. reflexivity.
Defined.

Lemma null_id_is_answered_as_missing_witness :
  manage_songs (request DELETE (Some 1%Z) [("song_id", VNull)]) 1 fixtures =
    ({| status := HTTP_400_BAD_REQUEST;
        body := Errors [("song_id", "This field is required.")] |}, fixtures).
Proof.
  destruct (null_id_is_answered_as_missing
              (request DELETE (Some 1%Z) [("song_id", VNull)]) 1 fixtures)
    as [_ Hsong]; [by right|].
  apply (Hsong old_playlist); reflexivity.
Defined.

Lemma confirmation_asks_only_IsRequestedArtist_witness :
  let nobody : BasePermission Release :=
    {| has_permission _ := false; has_object_permission _ _ _ := false |} in
  let strict :=
    Build_Permissions nobody permissions.IsPlaylistOwner
      permissions.IsUserOrReadOnly permissions.IsRequestedArtist in
  @confirm_current_user_as_artist strict _ _ Song (request POST (Some 2%Z) []) 1
    fixtures_requested =
  confirm_current_user_as_artist Song (request POST (Some 2%Z) []) 1
    fixtures_requested.
Proof.
  intros nobody strict.
  apply (confirmation_asks_only_IsRequestedArtist strict modelled_permissions).
  reflexivity.
Defined.

Lemma rejected_creation_stores_nothing_witness :
  releases_list Album [] (request POST (Some 1%Z) []) fixtures =
    ({| status := HTTP_400_BAD_REQUEST;
        body := Errors [("title", "This field is required.")] |}, fixtures) ∧
  playlists_list [] (request POST (Some 1%Z) []) fixtures =
    ({| status := HTTP_400_BAD_REQUEST;
        body := Errors [("title", "This field is required.")] |}, fixtures).
Proof.
  destruct (rejected_creation_stores_nothing [] (request POST (Some 1%Z) [])
              fixtures [("title", "This field is required.")])
    as [Hrelease Hplaylist]; [reflexivity|].
  split.
  - apply Hrelease; reflexivity.
  - apply Hplaylist; reflexivity.
Defined.

Lemma accepted_creation_adds_one_release_witness :
  let req := request POST (Some 2%Z) [("title", VStr "New album")] in
  ∃ pk r db',
    releases_list Album [] req fixtures =
      ({| status := HTTP_201_CREATED; body := ReleaseData Album pk r |}, db') ∧
    size (albums db') = 2 ∧ songs db' = songs fixtures.
Proof.
  intros req.
  edestruct (accepted_creation_adds_one_release Album [] req 2 fixtures)
    as (pk & r & db' & Heq & _ & _ & Hsize & _ & Hother & _);
    [reflexivity..|].
  exists pk, r, db'. split; [exact Heq|]. split.
  - exact Hsize.
  - apply (Hother Song). discriminate.
Defined.


Lemma lists_without_terms_are_complete_witness :
  ∃ rows,
    playlists_list [] (request GET (Some 1%Z) []) fixtures =
      ({| status := HTTP_200_OK; body := PlaylistResults rows |}, fixtures) ∧
    length rows = 1.
Proof.
  destruct (lists_without_terms_are_complete (request GET (Some 1%Z) [])
              fixtures) as (_ & _ & Hplaylists); [reflexivity|].
  destruct (Hplaylists 1%Z) as (rows & Heq & Hlen & _); [reflexivity..|].
  exists rows. split; [exact Heq|]. rewrite Hlen. reflexivity.
Defined.

Lemma a_further_term_narrows_the_list_witness :
  ∃ rows rows',
    users_list ["old"] (request GET None []) fixtures =
      ({| status := HTTP_200_OK; body := UserResults rows |}, fixtures) ∧
    users_list ["old"; "2"] (request GET None []) fixtures =
      ({| status := HTTP_200_OK; body := UserResults rows' |}, fixtures) ∧
    rows' `sublist_of` rows.
Proof.
  destruct (a_further_term_narrows_the_list ["old"] "2" (request GET None [])
              fixtures) as [Husers _]; [reflexivity|].
  apply Husers. reflexivity.
Defined.

Lemma user_delete_that_fails_changes_nothing_witness :
  users_detail (request DELETE (Some 1%Z) []) 9 fixtures =
    ({| status := HTTP_404_NOT_FOUND; body := Detail "Not found." |}, fixtures) ∧
  users_detail (request DELETE None []) 2 fixtures =
    ({| status := HTTP_401_UNAUTHORIZED;
        body := Detail "Authentication credentials were not provided." |},
     fixtures).
Proof.
  destruct (user_delete_that_fails_changes_nothing
              (request DELETE (Some 1%Z) []) 9 fixtures) as [Hmissing _];
    [reflexivity..|].
  destruct (user_delete_that_fails_changes_nothing
              (request DELETE None []) 2 fixtures) as [_ Hrefused];
    [reflexivity..|].
  split.
  - apply Hmissing. reflexivity.
  - apply (Hrefused old_user_2); reflexivity.
Defined.

Lemma deleted_user_is_still_served_witness :
  ∃ db',
    users_detail (request DELETE (Some 2%Z) []) 2 fixtures =
      ({| status := HTTP_204_NO_CONTENT; body := NoBody |}, db') ∧
    users_detail (request GET None []) 2 db' =
      ({| status := HTTP_200_OK;
          body := UserData 2 (set_is_active false old_user_2) |}, db').
Proof.
  destruct (deleted_user_is_still_served fixtures 2 old_user_2
              (request DELETE (Some 2%Z) []) (request GET None []))
    as (db' & rows & Hdel & Hget & _); [reflexivity..|].
  exists db'. split; [exact Hdel|exact Hget].
Defined.

Lemma deleted_playlist_is_gone_witness :
  ∃ db',
    playlists_detail (request DELETE (Some 1%Z) []) 1 fixtures =
      ({| status := HTTP_204_NO_CONTENT; body := NoBody |}, db') ∧
    size (playlists db') = 1 ∧
    playlists_detail (request GET (Some 1%Z) []) 1 db' =
      ({| status := HTTP_404_NOT_FOUND; body := Detail "Not found." |}, db').
Proof.
  destruct (deleted_playlist_is_gone fixtures 1 old_playlist
              (request DELETE (Some 1%Z) []))
    as (db' & Hdel & _ & Hsize & _ & _ & _ & _ & Hafter); [reflexivity..|].
  exists db'. split; [exact Hdel|]. split.
  - apply eq_add_S. rewrite Hsize. reflexivity.
  - destruct (Hafter (request GET (Some 1%Z) [])) as [Hdetail _];
      [reflexivity..|].
    apply Hdetail. discriminate.
Defined.

End FurtherExamples.

Section AuthExamples.
Local Existing Instances example_registration_serializers
  example_login_serializer example_knox allow_any.

Lemma registration_stores_one_user_or_nothing_witness :
  let taken := request POST None
                 [("username", VStr "old_user"); ("password", VStr "new_password");
                  ("password_confirmation", VStr "new_password")] in
  let free := request POST None
                [("username", VStr "new_user"); ("password", VStr "new_password");
                 ("password_confirmation", VStr "new_password")] in
  user_register taken (fixtures, no_tokens) =
    (Refused {| status := HTTP_400_BAD_REQUEST;
                body := Errors [("username",
                                 "A user with that username already exists.")] |},
     (fixtures, no_tokens)) ∧
  ∃ pk u db' token tokens',
    user_register free (fixtures, no_tokens) =
      (UserAndToken HTTP_201_CREATED pk u token, (db', tokens')) ∧
    size (users db') = 3.
Proof.
  intros taken free.
  destruct (registration_stores_one_user_or_nothing taken fixtures
              no_tokens)
    as [Hrejected _]; [reflexivity..|].
  destruct (registration_stores_one_user_or_nothing free fixtures
              no_tokens)
    as [_ Haccepted]; [reflexivity..|].
  split.
  - apply Hrejected. reflexivity.
  - destruct (Haccepted
                {| username := "new_user"; password := "new_password";
                   first_name := ""; last_name := ""; birth_date := None;
                   country := None; email := None; is_active := true |}
                {| username := "new_user"; password := "new_password";
                   first_name := ""; last_name := ""; birth_date := None;
                   country := None; email := None; is_active := true |})
      as (pk & db' & token & tokens' & Heq & _ & _ & Hsize & _);
      [reflexivity..|].
    eexists pk, _, db', token, tokens'. split; [exact Heq|exact Hsize].
Defined.

Lemma login_writes_no_table_witness :
  let req := request POST None
               [("username", VStr "old_user"); ("password", VStr "pbkdf2$old")] in
  user_login req (fixtures, no_tokens) =
    (UserAndToken HTTP_200_OK 1 old_user "token", (fixtures, (1%Z, "token") :: no_tokens)) ∧
  user_login (request POST None [("username", VStr "old_user")]) (fixtures, no_tokens) =
    (Refused {| status := HTTP_400_BAD_REQUEST;
                body := Errors [("password", "This field is required.")] |},
     (fixtures, no_tokens)).
Proof.
  intros req.
  destruct (login_writes_no_table req fixtures no_tokens) as [_ Hpost].
  destruct Hpost as [_ Hok]; [reflexivity..|].
  destruct (login_writes_no_table
              (request POST None [("username", VStr "old_user")]) fixtures
              no_tokens)
    as [_ Hpost'].
  destruct Hpost' as [Hrejected _]; [reflexivity..|].
  split.
  - apply (Hok 1%Z old_user). reflexivity.
  - apply Hrejected. reflexivity.
Defined.

Lemma registration_and_login_take_only_posts_witness :
  (user_register (request GET None []) (fixtures, no_tokens)).2 = (fixtures, no_tokens) ∧
  user_login (request POST (Some 2%Z) []) (fixtures, no_tokens) =
  user_login (request POST None []) (fixtures, no_tokens).
Proof.
  destruct (registration_and_login_take_only_posts (request GET None [])
              (fixtures, no_tokens)) as [Hverb _].
  destruct Hverb as [Hregister _]; [discriminate|reflexivity|].
  destruct (registration_and_login_take_only_posts (request POST None [])
              (fixtures, no_tokens)) as [_ Hsame].
  destruct (Hsame (request POST (Some 2%Z) [])) as [_ Hlogin]; [reflexivity..|].
  split.
  - rewrite Hregister. reflexivity.
  - exact Hlogin.
Defined.

End AuthExamples.
